(** * WizardLightYearsCalculator: the fetch-or-cache resolution path and the
    distance function, embedded from the Python sources.

    - [config.py]      : module [Config]
    - [calculator.py]  : module [Calculator]
    - [database.py]    : [get_system], [insert_system], [update_system_timestamp]
    - [esi_client.py]  : [get_system_info]
    - [app.py]         : [validate_system_id], [get_or_fetch_system],
                         [calculate_distance_endpoint] (the query form;
                         [calculate_distance_post] for a JSON body),
                         [internal_error]

    Python exceptions are values of [exn]; a call that may raise returns a
    [result]; code that touches the database, the clock or the network is
    a function of an explicit [state]. *)

From Stdlib Require Import ZArith Ascii String Floats SpecFloat Lia.
From stdpp Require Import base option list strings pretty gmap.

Local Open Scope string_scope.
Local Open Scope Z_scope.

(** ** config.py *)

Module Config.

Definition MIN_SYSTEM_ID : Z := 30000000.
Definition MAX_SYSTEM_ID : Z := 31000000.

(** EVE Online specific lightyear value (9.46 x 10^15 meters). *)
Definition LIGHTYEAR_IN_METERS : float := 9460000000000000.0%float.

End Config.

(** ** Python strings

    A [str] is modelled as a byte string.  [lower] is [str.lower()] on
    ASCII letters and [contains needle hay] is [needle in hay]. *)

Module PyStr.

Definition lower_ascii (c : ascii) : ascii :=
  let n := N_of_ascii c in
  if ((65 <=? n) && (n <=? 90))%N then ascii_of_N (n + 32) else c.

Fixpoint lower (s : string) : string :=
  match s with
  | EmptyString => EmptyString
  | String c t => String (lower_ascii c) (lower t)
  end.

Fixpoint startswith (p s : string) : bool :=
  match p, s with
  | EmptyString, _ => true
  | String a p', String b s' => if decide (a = b) then startswith p' s' else false
  | String _ _, EmptyString => false
  end.

Fixpoint contains (needle hay : string) : bool :=
  startswith needle hay ||
  match hay with
  | EmptyString => false
  | String _ t => contains needle t
  end.

End PyStr.

(** ** Exceptions

    The exception classes that occur on the modelled paths.  The class
    hierarchy is given by the [is_*] predicates, which play the role of
    [isinstance] in an [except] clause. *)

Inductive exn : Type :=
  | HTTPError (status_code : Z) (msg : string)
      (* requests.exceptions.HTTPError, with e.response.status_code *)
  | RequestTimeout (msg : string)
      (* requests.exceptions.Timeout *)
  | ConnectionError (msg : string)
      (* requests.exceptions.ConnectionError *)
  | RequestsJSONDecodeError (msg : string)
      (* requests.exceptions.JSONDecodeError, which recent versions of the
         library raise from response.json(): both a RequestException and
         a ValueError *)
  | OtherRequestException (msg : string)
      (* any other RequestException *)
  | KeyError (key : string)
  | ValueError (msg : string)
  | TypeError (msg : string)
  | RuntimeError (msg : string)
  | OverflowError (msg : string)
  | SqliteError (msg : string)           (* sqlite3.Error and subclasses *)
  | AttributeError (msg : string).

Definition is_HTTPError (e : exn) : bool :=
  match e with HTTPError _ _ => true | _ => false end.

Definition is_RequestException (e : exn) : bool :=
  match e with
  | HTTPError _ _ | RequestTimeout _ | ConnectionError _
  | RequestsJSONDecodeError _ | OtherRequestException _ => true
  | _ => false
  end.

Definition is_KeyError (e : exn) : bool :=
  match e with KeyError _ => true | _ => false end.

Definition is_ValueError (e : exn) : bool :=
  match e with ValueError _ | RequestsJSONDecodeError _ => true | _ => false end.

Definition is_RuntimeError (e : exn) : bool :=
  match e with RuntimeError _ => true | _ => false end.

(** [str(e)]: the message, and for a [KeyError] the repr of the key. *)
Definition str (e : exn) : string :=
  match e with
  | HTTPError _ m | RequestTimeout m | ConnectionError m
  | RequestsJSONDecodeError m | OtherRequestException m
  | ValueError m | TypeError m | RuntimeError m
  | OverflowError m | SqliteError m | AttributeError m => m
  | KeyError k => "'" +:+ k +:+ "'"
  end.

Inductive result (A : Type) : Type :=
  | Ok (a : A)
  | Raise (e : exn).
Arguments Ok {A} a.
Arguments Raise {A} e.

Definition result_bind {A B} (r : result A) (k : A -> result B) : result B :=
  match r with
  | Ok a => k a
  | Raise e => Raise e
  end.

(** ** calculator.py

    Coordinates are binary64 floats, as read back from the REAL columns
    of the systems table.  [-], [+] and [/] on floats are the IEEE 754
    operations and raise nothing ([/] has a nonzero constant divisor).
    [v ** 2] is taken as the correctly rounded square, and raises
    [OverflowError] when the square of a finite operand overflows; the C
    library's [pow], which CPython calls, may differ from the correctly
    rounded square in the last bit for some operands.  [math.sqrt]
    raises [ValueError] on a negative operand and passes NaN through. *)

Module Calculator.
Import Config.

Record coords : Type := Coords { cx : float; cy : float; cz : float }.

Record distance : Type := Distance {
  distance_meters : float;
  distance_lightyears : float
}.

Definition pow2 (v : float) : result float :=
  let r := (v * v)%float in
  if is_finite v && is_infinity r
  then Raise (OverflowError "(34, 'Numerical result out of range')")
  else Ok r.

Definition math_sqrt (v : float) : result float :=
  if (v <? 0)%float then Raise (ValueError "math domain error")
  else Ok (sqrt v).

Definition calculate_distance (system1 system2 : coords) : result distance :=
  let '(x1, y1, z1) := (cx system1, cy system1, cz system1) in
  let '(x2, y2, z2) := (cx system2, cy system2, cz system2) in
  result_bind (pow2 (x2 - x1)%float) (fun dx2 =>
  result_bind (pow2 (y2 - y1)%float) (fun dy2 =>
  result_bind (pow2 (z2 - z1)%float) (fun dz2 =>
  result_bind (math_sqrt (dx2 + dy2 + dz2)%float) (fun distance_meters =>
  let distance_lightyears := (distance_meters / LIGHTYEAR_IN_METERS)%float in
  Ok (Distance distance_meters distance_lightyears))))).

(** A float that is not below zero: a zero of either sign, a positive
    number, plus infinity, or NaN. *)
Definition not_negative (f : spec_float) : bool :=
  match f with
  | S754_zero _ | S754_nan => true
  | S754_infinity s | S754_finite s _ _ => negb s
  end.

End Calculator.

(** ** JSON values and upstream responses *)

(** A decoded JSON document, i.e. the Python value [response.json()]
    returns.  An object is a dict, kept as an association list that is
    read by its first matching key. *)
#[local] Set Warnings "-register-all".
Inductive json_value : Type :=
  | JNull
  | JBool (b : bool)
  | JInt (n : Z)
  | JFloat (f : float)
  | JStr (s : string)
  | JArr (items : list json_value)
  | JObj (members : list (string * json_value)).

Fixpoint dict_get (key : string) (members : list (string * json_value))
  : option json_value :=
  match members with
  | [] => None
  | (k, v) :: rest => if decide (k = key) then Some v else dict_get key rest
  end.

(** [data[key]] with a string key: [KeyError] on a dict without the key,
    [TypeError] on a value that is not a dict. *)
Definition getitem (data : json_value) (key : string) : result json_value :=
  match data with
  | JObj members =>
      match dict_get key members with
      | Some v => Ok v
      | None => Raise (KeyError key)
      end
  | JArr _ => Raise (TypeError "list indices must be integers or slices, not str")
  | JStr _ => Raise (TypeError "string indices must be integers")
  | JNull => Raise (TypeError "'NoneType' object is not subscriptable")
  | JBool _ => Raise (TypeError "'bool' object is not subscriptable")
  | JInt _ => Raise (TypeError "'int' object is not subscriptable")
  | JFloat _ => Raise (TypeError "'float' object is not subscriptable")
  end.

(** What the [requests] library hands back for one GET: the status code
    and the outcome of [response.json()]. *)
Record Response : Type := {
  status_code : Z;
  json : result json_value
}.

(** [response.raise_for_status()] of the [requests] library: an
    [HTTPError] for a 4xx or 5xx status, nothing otherwise.  The reason
    phrase and the url of the library's message are left out. *)
Definition raise_for_status (response : Response) : result unit :=
  let c := status_code response in
  if (400 <=? c) && (c <? 500) then
    Raise (HTTPError c (pretty c +:+ " Client Error"))
  else if (500 <=? c) && (c <? 600) then
    Raise (HTTPError c (pretty c +:+ " Server Error"))
  else Ok tt.

(** The dict [get_system_info] returns. *)
Record esi_data : Type := {
  esi_system_id : json_value;
  esi_name : json_value;
  esi_x : json_value;
  esi_y : json_value;
  esi_z : json_value
}.

(** ** The systems table *)

(** Timestamps are instants on the UTC clock, in microseconds;
    [isoformat()] renders them as text, which the model leaves out. *)
Definition timestamp : Type := Z.

(** One row of [systems], as the dict [get_system] builds from it. *)
Record Row : Type := {
  system_id : Z;
  name : string;
  x : float;
  y : float;
  z : float;
  added : timestamp;
  last_update : timestamp
}.

(** The values of the five caller-supplied columns after SQLite has bound
    the parameters of the INSERT. *)
Record bound_params : Type := {
  b_system_id : Z;
  b_name : string;
  b_x : float;
  b_y : float;
  b_z : float
}.

(** The process state: the systems table, the number of clock readings
    taken so far, and the log of system ids for which [requests.get] was
    called. *)
Record state : Type := {
  db : gmap Z Row;
  reads : nat;
  calls : list Z
}.

Definition init_state : state := {| db := ∅; reads := 0; calls := [] |}.

(** Computations that read and write the state and may raise.  A raised
    exception keeps the state changes made before it. *)
Definition M (A : Type) : Type := state -> result A * state.

Definition ret {A} (a : A) : M A := fun st => (Ok a, st).

Definition raise {A} (e : exn) : M A := fun st => (Raise e, st).

Definition bind {A B} (m : M A) (k : A -> M B) : M B :=
  fun st =>
    match m st with
    | (Ok a, st') => k a st'
    | (Raise e, st') => (Raise e, st')
    end.

Definition lift {A} (r : result A) : M A := fun st => (r, st).

(** [try: body except Exception as e: handler e]; the handler's own
    exceptions are not caught again. *)
Definition try_except {A} (body : M A) (handler : exn -> M A) : M A :=
  fun st =>
    match body st with
    | (Ok a, st') => (Ok a, st')
    | (Raise e, st') => handler e st'
    end.

Notation "'do' v <- m ; k" := (bind m (fun v => k))
  (at level 10, v name, m at level 100, k at level 200,
   format "'[v' 'do'  v  <-  m ; '/' k ']'").
Notation "m ;; k" := (bind m (fun _ => k))
  (at level 100, k at level 200, right associativity).

(** ** The failure kinds of the specification

    The three [raise] statements of [get_system_info], named as the spec
    names them.  Any other exception leaving the client is unclassified. *)

Inductive ResolutionFailure : Type :=
  | NotFound
  | TransientUnavailable
  | MalformedUpstreamData.

Definition failure_kind (e : exn) : option ResolutionFailure :=
  match e with
  | ValueError m =>
      if PyStr.startswith "System ID " m && PyStr.contains " not found" m
      then Some NotFound else None
  | RuntimeError m =>
      if PyStr.startswith "Failed to fetch system data from ESI: " m
      then Some TransientUnavailable
      else if PyStr.startswith "Invalid response format from ESI: " m
      then Some MalformedUpstreamData
      else None
  | _ => None
  end.

Definition has_key (key : string) (members : list (string * json_value)) : bool :=
  match dict_get key members with
  | Some _ => true
  | None => false
  end.

(** A payload that is a JSON object lacking [system_id], [name] or
    [position], or whose [position] is an object lacking [x], [y] or [z]. *)
Definition missing_required_field (data : json_value) : bool :=
  match data with
  | JObj members =>
      negb (has_key "system_id" members)
      || negb (has_key "name" members)
      || match dict_get "position" members with
         | None => true
         | Some (JObj pos) =>
             negb (has_key "x" pos) || negb (has_key "y" pos)
             || negb (has_key "z" pos)
         | Some _ => false
         end
  | _ => false
  end.

(** ** A concrete environment

    A clock that advances by one microsecond per reading, an upstream
    that knows Jita and misbehaves in a fixed way for five other ids, and
    a binding that accepts an integer key, a text name and three numbers
    (a key or a name of another type, and a coordinate that is a text,
    which SQLite may convert or store as they are, it rejects: a [Row]
    holds an integer, a string and three floats). *)

Module Scenario.

Definition clock (n : nat) : timestamp := 1771545600000000 + Z.of_nat n.

#[local] Set Warnings "-inexact-float".
Definition jita : json_value :=
  JObj [("system_id", JInt 30000142);
        ("name", JStr "Jita");
        ("position", JObj [("x", JFloat (-129400292875304960.0)%float);
                           ("y", JFloat 61596815791300400.0%float);
                           ("z", JFloat 1720986748719556600.0%float)]);
        ("constellation_id", JInt 20000020);
        ("star_id", JInt 40009077)].

(** The payload of the client's own missing-fields test. *)
Definition no_position : json_value :=
  JObj [("system_id", JInt 30000142); ("name", JStr "Jita")].

Definition net (n : nat) (id : Z) : result Response :=
  if decide (id = 30000142) then
    Ok {| status_code := 200; json := Ok jita |}
  else if decide (id = 30000143) then
    Ok {| status_code := 200; json := Ok no_position |}
  else if decide (id = 30000144) then
    Ok {| status_code := 200; json := Raise (RequestsJSONDecodeError "Expecting value: line 1 column 1 (char 0)") |}
  else if decide (id = 30000145) then
    Ok {| status_code := 503; json := Raise (RequestsJSONDecodeError "Expecting value: line 1 column 1 (char 0)") |}
  else if decide (id = 30000146) then
    Raise (RequestTimeout "Connection timeout")
  else if decide (id = 30000147) then
    Raise (ConnectionError "Network unreachable")
  else
    Ok {| status_code := 404; json := Raise (RequestsJSONDecodeError "Expecting value: line 1 column 1 (char 0)") |}.

(** A value bound to a REAL NOT NULL column: a float is stored as it
    is, except NaN, which SQLite stores as NULL and the column rejects
    as it rejects [None]; an integer that fits 64 bits, and a boolean,
    is stored as the nearest float; a list or a dict cannot be bound. *)
Definition to_real (v : json_value) : result float :=
  match v with
  | JFloat f =>
      if is_nan f then Raise (SqliteError "NOT NULL constraint failed")
      else Ok f
  | JInt n =>
      if (- 2 ^ 63 <=? n) && (n <? 2 ^ 63)
      then Ok (SF2Prim (binary_normalize prec emax n 0 false))
      else Raise (OverflowError "Python int too large to convert to SQLite INTEGER")
  | JBool b => Ok (if b then 1%float else 0%float)
  | JNull => Raise (SqliteError "NOT NULL constraint failed")
  | JStr _ => Raise (SqliteError "datatype mismatch")
  | JArr _ | JObj _ =>
      Raise (SqliteError "Error binding parameter: type is not supported")
  end.

Definition sqlite_bind (system_id name x y z : json_value)
  : result bound_params :=
  match system_id, name with
  | JInt i, JStr s =>
      if (- 2 ^ 63 <=? i) && (i <? 2 ^ 63) then
        result_bind (to_real x) (fun fx =>
        result_bind (to_real y) (fun fy =>
        result_bind (to_real z) (fun fz =>
        Ok {| b_system_id := i; b_name := s;
              b_x := fx; b_y := fy; b_z := fz |})))
      else Raise (OverflowError "Python int too large to convert to SQLite INTEGER")
  | JInt _, JNull => Raise (SqliteError "NOT NULL constraint failed: systems.name")
  | _, _ => Raise (SqliteError "datatype mismatch")
  end.

End Scenario.

(** ** Further vocabulary for the properties below *)



(** A float that is a zero or a finite number. *)
Definition sf_finite (f : spec_float) : bool :=
  match f with
  | S754_zero _ | S754_finite _ _ _ => true
  | S754_infinity _ | S754_nan => false
  end.


(** ** A second environment

    An upstream that answers every request with the Jita payload,
    whatever id was asked for, and an [int] that reads one numeral. *)

Module Mirror.

Definition net (n : nat) (id : Z) : result Response :=
  Ok {| status_code := 200; json := Ok Scenario.jita |}.

Definition int_of_str (s : string) : option Z :=
  if decide (s = "30000142") then Some 30000142 else None.

End Mirror.

(** ** A clock that is set back

    [datetime.utcnow()] reads the wall clock of the host, which a time
    synchronisation or an operator can set back between two readings:
    here by one hour after the first reading. *)

Module SetBack.

Definition clock (n : nat) : timestamp :=
  match n with
  | O => 1771545600000000
  | S _ => 1771545600000000 - 3600000000 + Z.of_nat n
  end.

(** A table written while the clock was an hour ahead: the Jita row,
    stamped later than the readings [Scenario.clock] gives next. *)
Definition ahead : state :=
  {| db := {[ 30000142 :=
                {| system_id := 30000142; name := "Jita";
                   x := 1; y := 2; z := 3;
                   added := 1771545600000000 + 3600000000;
                   last_update := 1771545600000000 + 3600000000 |} ]};
     reads := 0; calls := [] |}.

End SetBack.


(** ** The environment

    Three things the program reads but does not define:
    - [clock n] is the value of [datetime.utcnow()] at its n-th reading;
    - [net n id] is what [requests.get] does at the n-th request, made
      for system [id]: it raises, or it returns a response;
    - [sqlite_bind] is SQLite binding the five parameters of the INSERT
      to the columns of [systems] (type affinity, NOT NULL): it yields the
      stored values or raises. *)

Section World.

Variable clock : nat -> timestamp.
Variable net : nat -> Z -> result Response.
Variable sqlite_bind :
  json_value -> json_value -> json_value -> json_value -> json_value ->
  result bound_params.

(** [datetime.utcnow()] *)
Definition utcnow : M timestamp :=
  fun st => (Ok (clock (reads st)),
             {| db := db st; reads := S (reads st); calls := calls st |}).

(** *** database.py *)

(** SELECT ... WHERE system_id = ?; [None] when there is no row. *)
Definition get_system (system_id : Z) : M (option Row) :=
  fun st => (Ok (db st !! system_id), st).

(** INSERT INTO systems ...; the primary key rejects a second row with
    the same system_id.  The clock is read before the statement runs.

    Each method of [Database] opens a connection of its own and closes
    it on its normal path only.  The table below is the database as a
    statement finds it when it obtains the write lock; a connection that
    a raising [insert_system] left open with its transaction keeps that
    lock until the interpreter reclaims it, and the INSERT and UPDATE
    statements of other connections then raise "database is locked",
    which this table does not record.  Keys that do not fit SQLite's 64
    bit integers, for which binding raises [OverflowError], are left
    out as well. *)
Definition execute_insert (now : timestamp) (p : bound_params) : M unit :=
  fun st =>
    match db st !! b_system_id p with
    | Some _ =>
        (Raise (SqliteError "UNIQUE constraint failed: systems.system_id"), st)
    | None =>
        let row := {| system_id := b_system_id p; name := b_name p;
                      x := b_x p; y := b_y p; z := b_z p;
                      added := now; last_update := now |} in
        (Ok tt, {| db := <[b_system_id p := row]> (db st);
                   reads := reads st; calls := calls st |})
    end.

Definition insert_system (system_id name x y z : json_value) : M unit :=
  do now <- utcnow;
  do p <- lift (sqlite_bind system_id name x y z);
  execute_insert now p.

Definition set_last_update (now : timestamp) (row : Row) : Row :=
  {| system_id := system_id row; name := name row;
     x := x row; y := y row; z := z row;
     added := added row; last_update := now |}.

(** UPDATE systems SET last_update = ? WHERE system_id = ?; no row
    matches a missing id and nothing changes.  This is the statement on
    a database whose write lock is free (see [execute_insert]). *)
Definition execute_update (now : timestamp) (system_id : Z) : M unit :=
  fun st =>
    (Ok tt, {| db := alter (set_last_update now) system_id (db st);
               reads := reads st; calls := calls st |}).

Definition update_system_timestamp (system_id : Z) : M unit :=
  do now <- utcnow;
  execute_update now system_id.

(** *** esi_client.py *)

(** The state once a request for [system_id] has been sent. *)
Definition called (system_id : Z) (st : state) : state :=
  {| db := db st; reads := reads st; calls := calls st ++ [system_id] |}.

(** [requests.get(url, headers=self.headers, timeout=10)] *)
Definition requests_get (system_id : Z) : M Response :=
  fun st => (net (length (calls st)) system_id, called system_id st).

(** The dict display of the [try] body; its items are evaluated in order. *)
Definition extract (data : json_value) : result esi_data :=
  result_bind (getitem data "system_id") (fun v_id =>
  result_bind (getitem data "name") (fun v_name =>
  result_bind (result_bind (getitem data "position") (fun p => getitem p "x")) (fun v_x =>
  result_bind (result_bind (getitem data "position") (fun p => getitem p "y")) (fun v_y =>
  result_bind (result_bind (getitem data "position") (fun p => getitem p "z")) (fun v_z =>
  Ok {| esi_system_id := v_id; esi_name := v_name;
        esi_x := v_x; esi_y := v_y; esi_z := v_z |}))))).

Definition get_system_info (system_id : Z) : M esi_data :=
  try_except
    (do response <- requests_get system_id;
     lift (raise_for_status response) ;;
     do data <- lift (json response);
     lift (extract data))
    (fun e =>
       if is_HTTPError e then
         match e with
         | HTTPError 404 _ =>
             raise (ValueError ("System ID " +:+ pretty system_id +:+ " not found"))
         | _ => raise e
         end
       else if is_RequestException e then
         raise (RuntimeError ("Failed to fetch system data from ESI: " +:+ str e))
       else if is_KeyError e || is_ValueError e then
         raise (RuntimeError ("Invalid response format from ESI: " +:+ str e))
       else raise e).

(** *** app.py *)

Definition validate_system_id (system_id : Z) : bool * string :=
  if (system_id <? Config.MIN_SYSTEM_ID) || (Config.MAX_SYSTEM_ID <? system_id)
  then (false, "System ID must be between 30,000,000 and 31,000,000")
  else (true, "").

Definition get_or_fetch_system (system_id : Z) : M Row :=
  do system_data <- get_system system_id;
  match system_data with
  | Some row =>
      update_system_timestamp system_id ;;
      ret row
  | None =>
      do esi_data <- get_system_info system_id;
      insert_system (esi_system_id esi_data) (esi_name esi_data)
                    (esi_x esi_data) (esi_y esi_data) (esi_z esi_data) ;;
      do db_record <- get_system system_id;
      match db_record with
      | None =>
          raise (RuntimeError ("Failed to retrieve system " +:+ pretty system_id
                               +:+ " after inserting"))
      | Some row => ret row
      end
  end.

(** The JSON body of a reply. *)
Inductive body : Type :=
  | ErrorBody (error : string)
  | DistanceBody (system_id_1 : Z) (name_1 : string)
                 (system_id_2 : Z) (name_2 : string)
                 (distance_meters distance_lightyears : float).

Definition row_coords (row : Row) : Calculator.coords :=
  Calculator.Coords (x row) (y row) (z row).

(** The three [except] clauses of [calculate_distance_endpoint]. *)
Definition handle_exception (e : exn) : Z * body :=
  if is_ValueError e then
    let error_str := str e in
    if PyStr.contains "not found" (PyStr.lower error_str) then
      (404, ErrorBody "One or more system IDs not found in EVE Online universe")
    else (400, ErrorBody "Invalid system data")
  else if is_RuntimeError e then
    let error_str := str e in
    if PyStr.contains "ESI" error_str
       || PyStr.contains "fetch" (PyStr.lower error_str) then
      (502, ErrorBody "Unable to retrieve system information. Please try again later.")
    else (500, ErrorBody "A service error occurred")
  else (500, ErrorBody "An unexpected error occurred").

(** The body of the endpoint's [try]. *)
Definition try_block (id1 id2 : Z) : M body :=
  do system1 <- get_or_fetch_system id1;
  do system2 <- get_or_fetch_system id2;
  do distance <- lift (Calculator.calculate_distance
                         (row_coords system1) (row_coords system2));
  ret (DistanceBody
         (system_id system1) (name system1)
         (system_id system2) (name system2)
         (Calculator.distance_meters distance)
         (Calculator.distance_lightyears distance)).

(** The endpoint, from the point where the two parameters have been read:
    [None] is a parameter that was not supplied, [Some n] one that is the
    integer [n]. *)
Definition calculate_distance_endpoint (system_id_1 system_id_2 : option Z)
  : state -> (Z * body) * state :=
  fun st =>
    match system_id_1, system_id_2 with
    | Some id1, Some id2 =>
        let '(is_valid, error_msg) := validate_system_id id1 in
        if negb is_valid then
          ((400, ErrorBody ("system_id_1: " +:+ error_msg)), st)
        else
        let '(is_valid, error_msg) := validate_system_id id2 in
        if negb is_valid then
          ((400, ErrorBody ("system_id_2: " +:+ error_msg)), st)
        else
        match try_block id1 id2 st with
        | (Ok response, st') => ((200, response), st')
        | (Raise e, st') => (handle_exception e, st')
        end
    | _, _ =>
        ((400, ErrorBody "Both system_id_1 and system_id_2 are required"), st)
    end.

(** *** Runs of the program *)

(** One use of the program: a store operation, a resolution, or a
    request to the endpoint. *)
Inductive op : Type :=
  | OpGetSystem (system_id : Z)
  | OpInsertSystem (system_id name x y z : json_value)
  | OpUpdateTimestamp (system_id : Z)
  | OpResolve (system_id : Z)
  | OpRequest (system_id_1 system_id_2 : option Z).

Definition run_op (st : state) (o : op) : state :=
  match o with
  | OpGetSystem id => snd (get_system id st)
  | OpInsertSystem i n vx vy vz => snd (insert_system i n vx vy vz st)
  | OpUpdateTimestamp id => snd (update_system_timestamp id st)
  | OpResolve id => snd (get_or_fetch_system id st)
  | OpRequest o1 o2 => snd (calculate_distance_endpoint o1 o2 st)
  end.

Definition run_ops (ops : list op) (st : state) : state :=
  fold_left run_op ops st.

(** The resolution of [id] in state [st] is one of the two resolutions
    of a request for [id1] and [id2] that starts in state [st0]. *)
Definition resolved_in_request (id1 id2 : Z) (st0 : state)
    (id : Z) (st : state) : Prop :=
  (id1 = id /\ st0 = st) \/
  (id2 = id /\ exists row, get_or_fetch_system id1 st0 = (Ok row, st)).

(** [m] relates every state it starts in to the state it ends in. *)
Definition respects (R : state -> state -> Prop) {A} (m : M A) : Prop :=
  forall st, R st (snd (m st)).

(** The columns that are written once, at insertion. *)
Definition same_identity (r r' : Row) : Prop :=
  system_id r = system_id r' /\ name r = name r' /\
  x r = x r' /\ y r = y r' /\ z r = z r' /\ added r = added r'.

(** Every row of [st] is still there in [st'], with the same identity. *)
Definition rows_kept (st st' : state) : Prop :=
  forall k r, db st !! k = Some r ->
    exists r', db st' !! k = Some r' /\ same_identity r r'.

(** Every [last_update] in the table is an earlier reading of the clock. *)
Definition stamped (st : state) : Prop :=
  forall k r, db st !! k = Some r ->
    exists n, (n < reads st)%nat /\ last_update r = clock n.


Definition monotone_clock : Prop :=
  forall n m, (n <= m)%nat -> clock n <= clock m.

(** *** The JSON form of a request

    The first lines of [calculate_distance_endpoint] when the request is
    a POST whose JSON body is an object [data]: the two values are read
    with [data.get], passed through [int], and the rest of the endpoint
    runs on the integers.  An exception that passes [except (ValueError,
    TypeError)] leaves the view function. *)

(** [int(s)] for a [str]: Python's numeral parser, [None] when it raises
    [ValueError]. *)
Variable int_of_str : string -> option Z.

(** [int(f)] for a float: truncation toward zero. *)
Definition int_of_float (f : float) : result Z :=
  match Prim2SF f with
  | S754_zero _ => Ok 0
  | S754_finite s m e => Ok (cond_Zopp s (Z.shiftl (Z.pos m) e))
  | S754_infinity _ =>
      Raise (OverflowError "cannot convert float infinity to integer")
  | S754_nan => Raise (ValueError "cannot convert float NaN to integer")
  end.

Definition is_TypeError (e : exn) : bool :=
  match e with TypeError _ => true | _ => false end.

(** [int(v)] for a value of the JSON body. *)
Definition py_int (v : json_value) : result Z :=
  match v with
  | JInt n => Ok n
  | JBool b => Ok (if b then 1 else 0)
  | JFloat f => int_of_float f
  | JStr s =>
      match int_of_str s with
      | Some n => Ok n
      | None => Raise (ValueError "invalid literal for int() with base 10")
      end
  | JNull =>
      Raise (TypeError "int() argument must be a string, a bytes-like object or a real number, not 'NoneType'")
  | JArr _ =>
      Raise (TypeError "int() argument must be a string, a bytes-like object or a real number, not 'list'")
  | JObj _ =>
      Raise (TypeError "int() argument must be a string, a bytes-like object or a real number, not 'dict'")
  end.

(** [data.get(key)]: Python's [None] for an absent key and for a JSON
    null alike. *)
Definition data_get (key : string) (data : list (string * json_value))
  : option json_value :=
  match dict_get key data with
  | Some JNull | None => None
  | Some v => Some v
  end.

Definition calculate_distance_json (data : list (string * json_value))
  : state -> result (Z * body) * state :=
  fun st =>
    match data_get "system_id_1" data, data_get "system_id_2" data with
    | Some v1, Some v2 =>
        match result_bind (py_int v1) (fun n1 =>
              result_bind (py_int v2) (fun n2 => Ok (n1, n2))) with
        | Ok (n1, n2) =>
            let '(reply, st') :=
              calculate_distance_endpoint (Some n1) (Some n2) st in
            (Ok reply, st')
        | Raise e =>
            if is_ValueError e || is_TypeError e then
              (Ok (400, ErrorBody "System IDs must be valid integers"), st)
            else (Raise e, st)
        end
    | _, _ =>
        (Ok (400, ErrorBody "Both system_id_1 and system_id_2 are required"), st)
    end.

Definition is_object (v : json_value) : bool :=
  match v with JObj _ => true | _ => false end.

(** The view on a POST whose JSON body decodes to [data], whatever JSON
    value that is: [data.get] exists on a dict only, and the attribute
    lookup on any other value raises [AttributeError] before anything
    else happens.  (A body that is not JSON at all makes [get_json]
    answer 400 by itself and never reaches these lines.) *)
Definition calculate_distance_post (data : json_value)
  : state -> result (Z * body) * state :=
  fun st =>
    match data with
    | JObj members => calculate_distance_json members st
    | JArr _ => (Raise (AttributeError "'list' object has no attribute 'get'"), st)
    | JStr _ => (Raise (AttributeError "'str' object has no attribute 'get'"), st)
    | JInt _ => (Raise (AttributeError "'int' object has no attribute 'get'"), st)
    | JFloat _ => (Raise (AttributeError "'float' object has no attribute 'get'"), st)
    | JBool _ => (Raise (AttributeError "'bool' object has no attribute 'get'"), st)
    | JNull => (Raise (AttributeError "'NoneType' object has no attribute 'get'"), st)
    end.

(** The members hold both ids, and the first one that [int] does not
    convert is an infinite float. *)
Definition infinite_id (members : list (string * json_value)) : Prop :=
  (exists f v2,
     data_get "system_id_1" members = Some (JFloat f) /\
     is_infinity f = true /\
     data_get "system_id_2" members = Some v2) \/
  (exists v1 n1 f,
     data_get "system_id_1" members = Some v1 /\
     py_int v1 = Ok n1 /\
     data_get "system_id_2" members = Some (JFloat f) /\
     is_infinity f = true).

(** [@app.errorhandler(500)] *)
Definition internal_error : Z * body :=
  (500, ErrorBody "Internal server error").

(** The reply to a POST with a JSON body: the view's own, or, when the
    view raises, the reply of [internal_error], which Flask calls for an
    exception that leaves a view when exceptions are not propagated (its
    default outside debug and testing mode). *)
Definition answer_post (data : json_value) : state -> (Z * body) * state :=
  fun st =>
    match calculate_distance_post data st with
    | (Ok reply, st') => (reply, st')
    | (Raise _, st') => (internal_error, st')
    end.

(** *** Further invariants of the table *)

(** Every row sits under its own system_id. *)
Definition keyed (st : state) : Prop :=
  forall k r, db st !! k = Some r -> system_id r = k.

(** Both timestamps of every row are past readings of the clock, and
    [added] was read no later than [last_update]. *)
Definition well_stamped (st : state) : Prop :=
  forall k r, db st !! k = Some r ->
    exists n m, (n <= m < reads st)%nat /\
                added r = clock n /\ last_update r = clock m.

(** [P] holds after whenever it held before. *)
Definition preserves (P : state -> Prop) (st st' : state) : Prop :=
  P st -> P st'.

(** The status and message of every reply that is not a 200: those of
    the view, and last the one of [internal_error]. *)
Definition error_replies : list (Z * string) :=
  [(400, "Both system_id_1 and system_id_2 are required");
   (400, "system_id_1: System ID must be between 30,000,000 and 31,000,000");
   (400, "system_id_2: System ID must be between 30,000,000 and 31,000,000");
   (404, "One or more system IDs not found in EVE Online universe");
   (400, "Invalid system data");
   (400, "System IDs must be valid integers");
   (502, "Unable to retrieve system information. Please try again later.");
   (500, "A service error occurred");
   (500, "An unexpected error occurred");
   (500, "Internal server error")].

(** A reply is a 200 with the distance body, or an error body with one
    of the fixed status and message pairs. *)
Definition fixed_reply (reply : Z * body) : Prop :=
  (fst reply = 200 /\
   exists id1 name1 id2 name2 meters lightyears,
     snd reply = DistanceBody id1 name1 id2 name2 meters lightyears) \/
  (exists msg,
     snd reply = ErrorBody msg /\ (fst reply, msg) ∈ error_replies).



(** ** Facts about the client *)


Lemma get_system_info_state (id : Z) (st : state) :
  snd (get_system_info id st) = called id st.
Proof.
  unfold get_system_info, try_except, bind, requests_get, lift, raise.
  destruct (net _ id) as [response|e]; simpl.
  - destruct (raise_for_status response) as [[]|e]; simpl.
    + destruct (json response) as [data|e]; simpl.
      * destruct (extract data) as [d|e]; simpl; [done|].
        repeat (case_match; simpl; try done).
      * repeat (case_match; simpl; try done).
    + repeat (case_match; simpl; try done).
  - repeat (case_match; simpl; try done).
Qed.

Lemma get_system_info_request_fails (id : Z) (st : state) (e : exn) :
  net (length (calls st)) id = Raise e ->
  is_HTTPError e = false ->
  is_RequestException e = true ->
  get_system_info id st =
    (Raise (RuntimeError ("Failed to fetch system data from ESI: " +:+ str e)),
     called id st).
Proof.
  intros Hnet Hhttp Hreq.
  unfold get_system_info, try_except, bind, requests_get, lift, raise.
  by rewrite Hnet, Hhttp, Hreq.
Qed.

Lemma get_system_info_http_error (id : Z) (st : state) (response : Response)
    (c : Z) (m : string) :
  net (length (calls st)) id = Ok response ->
  raise_for_status response = Raise (HTTPError c m) ->
  get_system_info id st =
    (Raise (if decide (c = 404)
            then ValueError ("System ID " +:+ pretty id +:+ " not found")
            else HTTPError c m),
     called id st).
Proof.
  intros Hnet Hstatus.
  unfold get_system_info, try_except, bind, requests_get, lift, raise.
  rewrite Hnet, Hstatus. simpl.
  case_decide as Hc; [by subst c|].
  destruct c as [|c|c]; try done.
  repeat (destruct c as [c|c|]; try done).
Qed.


Lemma get_system_info_returns (id : Z) (st : state) (response : Response)
    (data : json_value) (d : esi_data) :
  net (length (calls st)) id = Ok response ->
  raise_for_status response = Ok tt ->
  json response = Ok data ->
  extract data = Ok d ->
  get_system_info id st = (Ok d, called id st).
Proof.
  intros Hnet Hstatus Hjson Hdata.
  unfold get_system_info, try_except, bind, requests_get, lift, raise.
  by rewrite Hnet, Hstatus, Hjson, Hdata.
Qed.

(** Two responses that are malformed in a wider sense and leave the
    client differently: a parse failure raised as the library's own
    JSON error is a [RequestException] first, and a [position] that is
    not an object raises [TypeError], which no clause catches. *)


Lemma get_system_info_type_error (id : Z) (st : state) (response : Response)
    (data : json_value) (m : string) :
  net (length (calls st)) id = Ok response ->
  raise_for_status response = Ok tt ->
  json response = Ok data ->
  extract data = Raise (TypeError m) ->
  get_system_info id st = (Raise (TypeError m), called id st).
Proof.
  intros Hnet Hstatus Hjson Hdata.
  unfold get_system_info, try_except, bind, requests_get, lift, raise.
  by rewrite Hnet, Hstatus, Hjson, Hdata.
Qed.

(** ** Facts about the boundary *)

Lemma handle_failed_to_fetch (detail : string) :
  handle_exception
    (RuntimeError ("Failed to fetch system data from ESI: " +:+ detail)) =
  (502, ErrorBody "Unable to retrieve system information. Please try again later.").
Proof. reflexivity. Qed.


Lemma handle_http_error (c : Z) (m : string) :
  handle_exception (HTTPError c m) =
  (500, ErrorBody "An unexpected error occurred").
Proof. reflexivity. Qed.

Lemma kind_failed_to_fetch (detail : string) :
  failure_kind
    (RuntimeError ("Failed to fetch system data from ESI: " +:+ detail)) =
  Some TransientUnavailable.
Proof. reflexivity. Qed.


(** ** State relations kept by every run

    A reflexive and transitive relation on states that the three
    state-changing primitives respect is respected by the client, the
    resolution, the endpoint and every run of operations. *)

Section Respects.

Variable R : state -> state -> Prop.
Hypothesis R_refl : forall st, R st st.
Hypothesis R_trans : forall st1 st2 st3, R st1 st2 -> R st2 st3 -> R st1 st3.
Hypothesis R_insert : forall i n vx vy vz, respects R (insert_system i n vx vy vz).
Hypothesis R_update : forall id, respects R (update_system_timestamp id).
Hypothesis R_request : forall id, respects R (requests_get id).

Lemma respects_ret {A} (a : A) : respects R (ret a).
Proof. intros st. apply R_refl. Qed.

Lemma respects_raise {A} (e : exn) : respects R (@raise A e).
Proof. intros st. apply R_refl. Qed.

Lemma respects_lift {A} (r : result A) : respects R (lift r).
Proof. intros st. apply R_refl. Qed.

Lemma respects_bind {A B} (m : M A) (k : A -> M B) :
  respects R m -> (forall a, respects R (k a)) -> respects R (bind m k).
Proof.
  intros Hm Hk st. unfold bind. specialize (Hm st).
  destruct (m st) as [[a|e] st']; simpl in *; [|done].
  eapply R_trans; [exact Hm|apply Hk].
Qed.

Lemma respects_try_except {A} (body : M A) (handler : exn -> M A) :
  respects R body -> (forall e, respects R (handler e)) ->
  respects R (try_except body handler).
Proof.
  intros Hb Hh st. unfold try_except. specialize (Hb st).
  destruct (body st) as [[a|e] st']; simpl in *; [done|].
  eapply R_trans; [exact Hb|apply Hh].
Qed.

Lemma respects_get_system (id : Z) : respects R (get_system id).
Proof. intros st. apply R_refl. Qed.

Lemma respects_get_system_info (id : Z) : respects R (get_system_info id).
Proof.
  apply respects_try_except.
  - apply respects_bind; [apply R_request|]. intros response.
    apply respects_bind; [apply respects_lift|]. intros _.
    apply respects_bind; [apply respects_lift|]. intros data.
    apply respects_lift.
  - intros e. repeat case_match; apply respects_raise.
Qed.

Lemma respects_get_or_fetch_system (id : Z) :
  respects R (get_or_fetch_system id).
Proof.
  apply respects_bind; [apply respects_get_system|].
  intros [row|].
  - apply respects_bind; [apply R_update|]. intros _. apply respects_ret.
  - apply respects_bind; [apply respects_get_system_info|]. intros d.
    apply respects_bind; [apply R_insert|]. intros _.
    apply respects_bind; [apply respects_get_system|].
    intros [row|]; [apply respects_ret|apply respects_raise].
Qed.

Lemma respects_try_block (id1 id2 : Z) : respects R (try_block id1 id2).
Proof.
  apply respects_bind; [apply respects_get_or_fetch_system|]. intros system1.
  apply respects_bind; [apply respects_get_or_fetch_system|]. intros system2.
  apply respects_bind; [apply respects_lift|]. intros distance.
  apply respects_ret.
Qed.

Lemma respects_endpoint (o1 o2 : option Z) (st : state) :
  R st (snd (calculate_distance_endpoint o1 o2 st)).
Proof.
  unfold calculate_distance_endpoint.
  destruct o1 as [id1|], o2 as [id2|]; simpl; try apply R_refl.
  destruct (validate_system_id id1) as [[] ?]; simpl; [|apply R_refl].
  destruct (validate_system_id id2) as [[] ?]; simpl; [|apply R_refl].
  pose proof (respects_try_block id1 id2 st) as H.
  by destruct (try_block id1 id2 st) as [[?|?] ?].
Qed.

Lemma respects_run_op (o : op) (st : state) : R st (run_op st o).
Proof.
  destruct o; simpl.
  - apply R_refl.
  - apply R_insert.
  - apply R_update.
  - apply respects_get_or_fetch_system.
  - apply respects_endpoint.
Qed.

Lemma respects_run_ops (ops : list op) (st : state) : R st (run_ops ops st).
Proof.
  revert st. induction ops as [|o ops IH]; intros st; simpl.
  - apply R_refl.
  - eapply R_trans; [apply respects_run_op|apply IH].
Qed.

End Respects.

(** ** The store keeps its rows *)

Lemma same_identity_refl (r : Row) : same_identity r r.
Proof. by repeat split. Qed.

Lemma same_identity_trans (r1 r2 r3 : Row) :
  same_identity r1 r2 -> same_identity r2 r3 -> same_identity r1 r3.
Proof.
  intros (?&?&?&?&?&?) (?&?&?&?&?&?). repeat split; congruence.
Qed.

Lemma same_identity_touch (now : timestamp) (r : Row) :
  same_identity r (set_last_update now r).
Proof. by repeat split. Qed.

Lemma rows_kept_refl (st : state) : rows_kept st st.
Proof. intros k r Hk. eauto using same_identity_refl. Qed.

Lemma rows_kept_trans (st1 st2 st3 : state) :
  rows_kept st1 st2 -> rows_kept st2 st3 -> rows_kept st1 st3.
Proof.
  intros H12 H23 k r Hk.
  destruct (H12 k r Hk) as (r2 & Hk2 & Hid2).
  destruct (H23 k r2 Hk2) as (r3 & Hk3 & Hid3).
  eauto using same_identity_trans.
Qed.

Lemma rows_kept_insert (i n vx vy vz : json_value) :
  respects rows_kept (insert_system i n vx vy vz).
Proof.
  intros st k r Hk.
  unfold insert_system, bind, utcnow, lift, execute_insert. simpl.
  destruct (sqlite_bind i n vx vy vz) as [p|e]; simpl;
    [|eauto using same_identity_refl].
  destruct (db st !! b_system_id p) as [old|] eqn:Hp; simpl;
    [eauto using same_identity_refl|].
  exists r. split; [|apply same_identity_refl].
  rewrite lookup_insert_ne; [done|congruence].
Qed.

Lemma rows_kept_update (id : Z) :
  respects rows_kept (update_system_timestamp id).
Proof.
  intros st k r Hk.
  unfold update_system_timestamp, bind, utcnow, execute_update. simpl.
  destruct (decide (id = k)) as [->|Hne].
  - exists (set_last_update (clock (reads st)) r). split.
    + by rewrite lookup_alter_eq, Hk.
    + apply same_identity_touch.
  - exists r. split; [|apply same_identity_refl].
    by rewrite lookup_alter_ne.
Qed.

Lemma rows_kept_request (id : Z) : respects rows_kept (requests_get id).
Proof. intros st k r Hk. simpl. eauto using same_identity_refl. Qed.

Lemma rows_kept_run (ops : list op) (st : state) :
  rows_kept st (run_ops ops st).
Proof.
  exact (respects_run_ops rows_kept rows_kept_refl rows_kept_trans
           rows_kept_insert rows_kept_update rows_kept_request ops st).
Qed.

(** ** Every stored timestamp is a past reading of the clock *)








(** ** The two paths of a resolution *)

Lemma cache_hit (id : Z) (st : state) (row : Row) :
  db st !! id = Some row ->
  get_or_fetch_system id st =
    (Ok row,
     {| db := alter (set_last_update (clock (reads st))) id (db st);
        reads := S (reads st);
        calls := calls st |}).
Proof.
  intros Hrow.
  unfold get_or_fetch_system, bind, get_system. simpl. by rewrite Hrow.
Qed.

Lemma cache_miss_fails (id : Z) (st st' : state) (e : exn) :
  db st !! id = None ->
  get_system_info id st = (Raise e, st') ->
  get_or_fetch_system id st = (Raise e, st').
Proof.
  intros Hmiss Hinfo.
  unfold get_or_fetch_system, bind, get_system. simpl.
  by rewrite Hmiss, Hinfo.
Qed.

Lemma cache_miss_returns (id : Z) (st st1 : state) (row : Row) :
  db st !! id = None ->
  get_or_fetch_system id st = (Ok row, st1) ->
  db st1 !! id = Some row /\ calls st1 = (calls st ++ [id])%list.
Proof.
  intros Hmiss.
  unfold get_or_fetch_system, bind at 1, get_system at 1. simpl.
  rewrite Hmiss. unfold bind at 1.
  pose proof (get_system_info_state id st) as Hst.
  destruct (get_system_info id st) as [[d|e] st0]; simpl in Hst; [|done].
  subst st0.
  unfold insert_system, bind, utcnow, lift, execute_insert, get_system, raise, ret.
  simpl.
  destruct (sqlite_bind _ _ _ _ _) as [p|e]; [|intros [=]].
  destruct (db st !! b_system_id p) as [old|]; [intros [=]|].
  simpl.
  destruct (<[_:=_]> (db st) !! id) as [r|] eqn:Hr; simpl; [|intros [=]].
  intros [= <- <-]. by simpl.
Qed.

Lemma resolved_is_cached (id : Z) (st st1 : state) (row : Row) :
  get_or_fetch_system id st = (Ok row, st1) ->
  exists row', db st1 !! id = Some row' /\ same_identity row row'.
Proof.
  destruct (db st !! id) as [r|] eqn:Hdb.
  - rewrite (cache_hit _ _ _ Hdb). intros [= <- <-]. simpl.
    exists (set_last_update (clock (reads st)) r).
    split; [by rewrite lookup_alter_eq, Hdb|apply same_identity_touch].
  - intros H. destruct (cache_miss_returns _ _ _ _ Hdb H) as [Hrow _].
    eauto using same_identity_refl.
Qed.

(** ** A failed resolution at the boundary *)

Lemma try_block_raises (id1 id2 : Z) (st0 : state) (id : Z) (st st' : state)
    (e : exn) :
  resolved_in_request id1 id2 st0 id st ->
  get_or_fetch_system id st = (Raise e, st') ->
  try_block id1 id2 st0 = (Raise e, st').
Proof.
  intros [[-> ->] | [-> [row Hfirst]]] Hfail; unfold try_block, bind.
  - by rewrite Hfail.
  - by rewrite Hfirst, Hfail.
Qed.

Lemma endpoint_raises (id1 id2 : Z) (st0 st' : state) (e : exn) :
  fst (validate_system_id id1) = true ->
  fst (validate_system_id id2) = true ->
  try_block id1 id2 st0 = (Raise e, st') ->
  calculate_distance_endpoint (Some id1) (Some id2) st0 =
    (handle_exception e, st').
Proof.
  intros H1 H2 Htry. unfold calculate_distance_endpoint.
  destruct (validate_system_id id1) as [v1 m1], (validate_system_id id2) as [v2 m2].
  simpl in H1, H2. subst v1 v2. simpl. by rewrite Htry.
Qed.

Lemma request_fails_with (id1 id2 : Z) (st0 : state) (id : Z) (st st' : state)
    (e : exn) :
  db st !! id = None ->
  get_system_info id st = (Raise e, st') ->
  fst (validate_system_id id1) = true ->
  fst (validate_system_id id2) = true ->
  resolved_in_request id1 id2 st0 id st ->
  calculate_distance_endpoint (Some id1) (Some id2) st0 =
    (handle_exception e, st').
Proof.
  intros Hmiss Hinfo H1 H2 Hin.
  eauto using endpoint_raises, try_block_raises, cache_miss_fails.
Qed.

(** ** The claims about the resolution path *)


(** C2, as the code has it: a timeout or a connection failure becomes the
    "Failed to fetch system data from ESI" [RuntimeError] (the
    TransientUnavailable kind) and the endpoint answers 502; a 4xx or 5xx
    status other than 404 leaves the client as the library's [HTTPError],
    of no kind, and the endpoint answers 500. *)
Theorem transient_upstream_status (id : Z) (st : state) :
  db st !! id = None ->
  (forall m,
     net (length (calls st)) id = Raise (RequestTimeout m) \/
     net (length (calls st)) id = Raise (ConnectionError m) ->
     let e := RuntimeError ("Failed to fetch system data from ESI: " +:+ m) in
     get_system_info id st = (Raise e, called id st) /\
     failure_kind e = Some TransientUnavailable /\
     get_or_fetch_system id st = (Raise e, called id st) /\
     forall id1 id2 st0,
       fst (validate_system_id id1) = true ->
       fst (validate_system_id id2) = true ->
       resolved_in_request id1 id2 st0 id st ->
       calculate_distance_endpoint (Some id1) (Some id2) st0 =
         ((502, ErrorBody
                  "Unable to retrieve system information. Please try again later."),
          called id st)) /\
  (forall response,
     net (length (calls st)) id = Ok response ->
     400 <= status_code response < 600 ->
     status_code response <> 404 ->
     exists m,
       let e := HTTPError (status_code response) m in
       get_system_info id st = (Raise e, called id st) /\
       failure_kind e = None /\
       get_or_fetch_system id st = (Raise e, called id st) /\
       forall id1 id2 st0,
         fst (validate_system_id id1) = true ->
         fst (validate_system_id id2) = true ->
         resolved_in_request id1 id2 st0 id st ->
         calculate_distance_endpoint (Some id1) (Some id2) st0 =
           ((500, ErrorBody "An unexpected error occurred"), called id st)).
Proof.
  intros Hmiss. split.
  - intros m Hnet. cbv zeta.
    assert (exists e0, net (length (calls st)) id = Raise e0 /\ str e0 = m /\
                       is_HTTPError e0 = false /\ is_RequestException e0 = true)
      as (e0 & Hnet0 & <- & Hhttp & Hreq).
    { destruct Hnet as [Hnet|Hnet]; eauto 6. }
    pose proof (get_system_info_request_fails id st e0 Hnet0 Hhttp Hreq) as Hinfo.
    split; [|split; [|split]].
    + exact Hinfo.
    + apply kind_failed_to_fetch.
    + by apply cache_miss_fails.
    + intros id1 id2 st0 H1 H2 Hin.
      rewrite <- (handle_failed_to_fetch (str e0)).
      by apply (request_fails_with id1 id2 st0 id st).
  - intros response Hnet Hrange Hne.
    assert (exists m, raise_for_status response =
                        Raise (HTTPError (status_code response) m))
      as [m Hstatus].
    { unfold raise_for_status.
      destruct (Z.ltb_spec (status_code response) 500).
      - replace (400 <=? status_code response) with true by (symmetry; lia).
        simpl. eauto.
      - replace (400 <=? status_code response) with true by (symmetry; lia).
        replace (500 <=? status_code response) with true by (symmetry; lia).
        replace (status_code response <? 600) with true by (symmetry; lia).
        simpl. eauto. }
    pose proof (get_system_info_http_error id st response _ m Hnet Hstatus)
      as Hinfo.
    rewrite decide_False in Hinfo by done.
    exists m. cbv zeta. split; [|split; [|split]].
    + exact Hinfo.
    + done.
    + by apply cache_miss_fails.
    + intros id1 id2 st0 H1 H2 Hin.
      rewrite <- (handle_http_error (status_code response) m).
      by apply (request_fails_with id1 id2 st0 id st).
Qed.

(** C3: when the store has no row for the id and the client fails, the
    resolution fails with the very same exception, and the table and the
    clock readings are as they were: nothing inserted, nothing touched. *)
Theorem resolver_failure_propagates (id : Z) (st st' : state) (e : exn) :
  db st !! id = None ->
  get_system_info id st = (Raise e, st') ->
  get_or_fetch_system id st = (Raise e, st') /\
  db st' = db st /\ reads st' = reads st.
Proof.
  intros Hmiss Hinfo. split; [by apply cache_miss_fails|].
  pose proof (get_system_info_state id st) as Hst.
  rewrite Hinfo in Hst. simpl in Hst. by subst st'.
Qed.

(** C5: two resolutions of the same id in a row, both returning, return
    the same system_id, name, x, y and z; and when the clock never runs
    backwards and every [last_update] in the table is an earlier reading
    of it, the second [last_update] is not before the first. *)
Theorem resolving_twice (id : Z) (st st1 st2 : state) (r1 r2 : Row) :
  get_or_fetch_system id st = (Ok r1, st1) ->
  get_or_fetch_system id st1 = (Ok r2, st2) ->
  (system_id r2 = system_id r1 /\ name r2 = name r1 /\
   x r2 = x r1 /\ y r2 = y r1 /\ z r2 = z r1) /\
  (monotone_clock -> stamped st -> last_update r1 <= last_update r2).
Proof.
  intros Hfirst Hsecond.
  destruct (db st !! id) as [row|] eqn:Hdb.
  - rewrite (cache_hit id st row Hdb) in Hfirst.
    injection Hfirst as -> <-.
    rewrite (cache_hit id _ (set_last_update (clock (reads st)) r1)) in Hsecond
      by (simpl; by rewrite lookup_alter_eq, Hdb).
    injection Hsecond as <- _. simpl.
    split; [by repeat split|].
    intros Hmono Hstamped.
    destruct (Hstamped id r1 Hdb) as (n & Hn & ->).
    apply Hmono. lia.
  - destruct (cache_miss_returns id st st1 r1 Hdb Hfirst) as [Hrow _].
    rewrite (cache_hit id st1 r1 Hrow) in Hsecond.
    injection Hsecond as <- _. split; [by repeat split|]. intros _ _. lia.
Qed.

(** C9: a row that is in the table stays in the table through every run
    of store operations, resolutions and requests, and keeps its
    system_id, name, x, y, z and added. *)
Theorem stored_identity_is_immutable (ops : list op) (st : state) (k : Z)
    (r : Row) :
  db st !! k = Some r ->
  exists r',
    db (run_ops ops st) !! k = Some r' /\
    system_id r' = system_id r /\ name r' = name r /\
    x r' = x r /\ y r' = y r /\ z r' = z r /\ added r' = added r.
Proof.
  intros Hrow.
  destruct (rows_kept_run ops st k r Hrow) as (r' & Hrow' & H1 & H2 & H3 & H4 & H5 & H6).
  exists r'. by repeat split.
Qed.


(** ** Messages that carry a system id

    The two messages built around [pretty system_id] are recognised by
    the boundary whatever the id is: a numeral has no letters. *)

Lemma lower_app (a b : string) :
  PyStr.lower (a +:+ b) = PyStr.lower a +:+ PyStr.lower b.
Proof. induction a as [|c a IH]; simpl; [done|by rewrite IH]. Qed.



Lemma contains_app_r (needle a b : string) :
  PyStr.contains needle b = true -> PyStr.contains needle (a +:+ b) = true.
Proof.
  intros Hb. induction a as [|c a IH]; simpl; [done|].
  rewrite IH. apply orb_true_r.
Qed.






Lemma handle_not_found (id : Z) :
  handle_exception
    (ValueError ("System ID " +:+ pretty id +:+ " not found")) =
  (404, ErrorBody "One or more system IDs not found in EVE Online universe").
Proof.
  unfold handle_exception. simpl is_ValueError. cbv iota.
  replace (PyStr.contains "not found"
             (PyStr.lower (str (ValueError
                ("System ID " +:+ pretty id +:+ " not found")))))
    with true; [done|].
  symmetry. simpl str. rewrite lower_app.
  apply contains_app_r. rewrite lower_app. by apply contains_app_r.
Qed.


(** ** Rows are keyed by their id and stamped in order *)

Lemma preserves_refl (P : state -> Prop) (st : state) : preserves P st st.
Proof. by intros H. Qed.

Lemma preserves_trans (P : state -> Prop) (st1 st2 st3 : state) :
  preserves P st1 st2 -> preserves P st2 st3 -> preserves P st1 st3.
Proof. unfold preserves. auto. Qed.

Lemma keyed_insert (i n vx vy vz : json_value) :
  respects (preserves keyed) (insert_system i n vx vy vz).
Proof.
  intros st Hst.
  unfold insert_system, bind, utcnow, lift, execute_insert. simpl.
  destruct (sqlite_bind i n vx vy vz) as [p|e]; simpl; [|done].
  destruct (db st !! b_system_id p) as [old|] eqn:Hp; simpl; [done|].
  intros k r Hk. simpl in Hk.
  destruct (decide (b_system_id p = k)) as [<-|Hne].
  - rewrite lookup_insert_eq in Hk. by injection Hk as <-.
  - rewrite lookup_insert_ne in Hk by done. by apply Hst.
Qed.

Lemma keyed_update (id : Z) :
  respects (preserves keyed) (update_system_timestamp id).
Proof.
  intros st Hst k r Hk.
  unfold update_system_timestamp, bind, utcnow, execute_update in Hk.
  simpl in Hk.
  destruct (decide (id = k)) as [->|Hne].
  - rewrite lookup_alter_eq in Hk.
    destruct (db st !! k) as [r0|] eqn:Hr0; [|done]. injection Hk as <-.
    simpl. by apply Hst.
  - rewrite lookup_alter_ne in Hk by done. by apply Hst.
Qed.

Lemma keyed_request (id : Z) : respects (preserves keyed) (requests_get id).
Proof. by intros st Hst. Qed.

Lemma keyed_run (ops : list op) : keyed (run_ops ops init_state).
Proof.
  apply (respects_run_ops (preserves keyed) (preserves_refl keyed)
           (preserves_trans keyed) keyed_insert keyed_update keyed_request
           ops init_state).
  intros k r Hk. simpl in Hk. by rewrite lookup_empty in Hk.
Qed.

Lemma well_stamped_insert (i n vx vy vz : json_value) :
  respects (preserves well_stamped) (insert_system i n vx vy vz).
Proof.
  intros st Hst.
  unfold insert_system, bind, utcnow, lift, execute_insert. simpl.
  assert (Hread : well_stamped
            {| db := db st; reads := S (reads st); calls := calls st |}).
  { intros k r Hk. destruct (Hst k r Hk) as (a & b & Hab & Ha & Hb).
    exists a, b. simpl. split; [lia|done]. }
  destruct (sqlite_bind i n vx vy vz) as [p|e]; simpl; [|done].
  destruct (db st !! b_system_id p) as [old|] eqn:Hp; simpl; [done|].
  intros k r Hk. simpl in Hk.
  destruct (decide (b_system_id p = k)) as [<-|Hne].
  - rewrite lookup_insert_eq in Hk. injection Hk as <-.
    exists (reads st), (reads st). simpl. split; [lia|done].
  - rewrite lookup_insert_ne in Hk by done.
    destruct (Hst k r Hk) as (a & b & Hab & Ha & Hb).
    exists a, b. simpl. split; [lia|done].
Qed.

Lemma well_stamped_update (id : Z) :
  respects (preserves well_stamped) (update_system_timestamp id).
Proof.
  intros st Hst k r Hk.
  unfold update_system_timestamp, bind, utcnow, execute_update in Hk |- *.
  simpl in Hk |- *.
  destruct (decide (id = k)) as [->|Hne].
  - rewrite lookup_alter_eq in Hk.
    destruct (db st !! k) as [r0|] eqn:Hr0; [|done]. injection Hk as <-.
    destruct (Hst k r0 Hr0) as (a & b & Hab & Ha & Hb).
    exists a, (reads st). simpl. split; [lia|done].
  - rewrite lookup_alter_ne in Hk by done.
    destruct (Hst k r Hk) as (a & b & Hab & Ha & Hb).
    exists a, b. split; [lia|done].
Qed.

Lemma well_stamped_request (id : Z) :
  respects (preserves well_stamped) (requests_get id).
Proof. by intros st Hst. Qed.

Lemma well_stamped_run (ops : list op) : well_stamped (run_ops ops init_state).
Proof.
  apply (respects_run_ops (preserves well_stamped)
           (preserves_refl well_stamped) (preserves_trans well_stamped)
           well_stamped_insert well_stamped_update well_stamped_request
           ops init_state).
  intros k r Hk. simpl in Hk. by rewrite lookup_empty in Hk.
Qed.

(** X6: In every state the program reaches from the empty table a row sits
    under its own system_id, so a resolution that returns, returns a
    record with the id that was asked for, whatever system_id the
    upstream put in its payload. *)
Theorem resolution_returns_requested_id (ops : list op) (id : Z)
    (row : Row) (st' : state) :
  get_or_fetch_system id (run_ops ops init_state) = (Ok row, st') ->
  system_id row = id /\
  forall k r, db st' !! k = Some r -> system_id r = k.
Proof.
  intros Hres. set (st := run_ops ops init_state) in *.
  assert (Hkeyed : keyed st') by
    (change st' with (snd (Ok row, st')); rewrite <- Hres;
     change (keyed (run_ops [OpResolve id] st)); unfold st;
     unfold run_ops; rewrite <- fold_left_app; apply keyed_run).
  split; [|exact Hkeyed].
  destruct (resolved_is_cached id st st' row Hres) as (row' & Hrow' & Hid & _).
  rewrite Hid. by apply Hkeyed.
Qed.

(** X7: With a clock that never runs backwards, no row the program writes
    has a [last_update] before its [added]. *)
Theorem added_not_after_last_update (ops : list op) (k : Z) (r : Row) :
  monotone_clock ->
  db (run_ops ops init_state) !! k = Some r ->
  added r <= last_update r.
Proof.
  intros Hmono Hr.
  destruct (well_stamped_run ops k r Hr) as (a & b & Hab & -> & ->).
  apply Hmono. lia.
Qed.

(** ** The store, operation by operation *)



(** X5: Touch then look up: when the touch returns, the row read back has
    the clock reading of the touch as its [last_update] and every other
    column as before; a touch of an id that is not in the table creates
    no row and changes none; no other key is affected either way; one
    reading of the clock was taken and no request was sent. *)
Theorem touch_then_lookup (id : Z) (st st' : state) :
  update_system_timestamp id st = (Ok tt, st') ->
  (forall row, db st !! id = Some row ->
     exists row',
       get_system id st' = (Ok (Some row'), st') /\
       last_update row' = clock (reads st) /\
       system_id row' = system_id row /\ name row' = name row /\
       x row' = x row /\ y row' = y row /\ z row' = z row /\
       added row' = added row) /\
  (db st !! id = None ->
     get_system id st' = (Ok None, st') /\ db st' = db st) /\
  (forall k, k <> id -> db st' !! k = db st !! k) /\
  reads st' = S (reads st) /\ calls st' = calls st.
Proof.
  unfold update_system_timestamp, bind, utcnow, execute_update.
  intros [= <-]. unfold get_system. simpl. split; [|split; [|split]].
  - intros row Hrow. eexists. rewrite lookup_alter_eq, Hrow. simpl.
    split; [reflexivity|]. by repeat split.
  - intros Hmiss. rewrite lookup_alter_eq, Hmiss. split; [done|].
    apply map_eq. intros k.
    destruct (decide (id = k)) as [->|Hne].
    + by rewrite lookup_alter_eq, Hmiss.
    + by rewrite lookup_alter_ne.
  - intros k Hk. by rewrite lookup_alter_ne.
  - done.
Qed.

(** ** The client, outcome by outcome *)

(** X8: The dict the client builds: it is built exactly when the payload
    is an object that has [system_id], [name] and a [position] object
    with [x], [y] and [z], and then holds those five values and nothing
    else of the payload; a [KeyError] is raised exactly when a required
    key is missing; anything else raised is a [TypeError]. *)
Theorem extract_outcomes (data : json_value) :
  (forall d,
     extract data = Ok d <->
     exists members pos,
       data = JObj members /\
       dict_get "system_id" members = Some (esi_system_id d) /\
       dict_get "name" members = Some (esi_name d) /\
       dict_get "position" members = Some (JObj pos) /\
       dict_get "x" pos = Some (esi_x d) /\
       dict_get "y" pos = Some (esi_y d) /\
       dict_get "z" pos = Some (esi_z d)) /\
  ((exists key, extract data = Raise (KeyError key)) <->
   missing_required_field data = true) /\
  (forall e, extract data = Raise e ->
     (exists key, e = KeyError key /\ missing_required_field data = true) \/
     (exists m, e = TypeError m /\ missing_required_field data = false)).
Proof.
  split; [|split].
  - intros d. split.
    + unfold extract, getitem.
      destruct data as [| | | | | |members]; simpl; try done.
      destruct (dict_get "system_id" members) as [v_id|] eqn:Hid; simpl;
        [|done].
      destruct (dict_get "name" members) as [v_name|] eqn:Hname; simpl;
        [|done].
      destruct (dict_get "position" members) as [pos|] eqn:Hpos; simpl;
        [|done].
      destruct pos as [| | | | | |pos]; simpl; try done.
      destruct (dict_get "x" pos) as [v_x|] eqn:Hx; simpl; [|done].
      destruct (dict_get "y" pos) as [v_y|] eqn:Hy; simpl; [|done].
      destruct (dict_get "z" pos) as [v_z|] eqn:Hz; simpl; [|done].
      intros [= <-]. by exists members, pos.
    + intros (members & pos & -> & Hid & Hname & Hpos & Hx & Hy & Hz).
      unfold extract, getitem. rewrite Hid, Hname, Hpos. simpl.
      rewrite Hx, Hy, Hz. simpl. by destruct d.
  - unfold extract, missing_required_field, has_key, getitem.
    destruct data as [| | | | | |members]; simpl;
      try (split; [by intros [key [=]]|done]).
    destruct (dict_get "system_id" members) as [v_id|]; simpl;
      [|split; [done|by eexists]].
    destruct (dict_get "name" members) as [v_name|]; simpl;
      [|split; [done|by eexists]].
    destruct (dict_get "position" members) as [pos|]; simpl;
      [|split; [done|by eexists]].
    destruct pos as [| | | | | |pos]; simpl;
      try (split; [by intros [key [=]]|done]).
    destruct (dict_get "x" pos) as [v_x|]; simpl;
      [|split; [done|by eexists]].
    destruct (dict_get "y" pos) as [v_y|]; simpl;
      [|split; [done|by eexists]].
    destruct (dict_get "z" pos) as [v_z|]; simpl;
      [|split; [done|by eexists]].
    split; [by intros [key [=]]|done].
  - intros e. unfold extract, missing_required_field, has_key, getitem.
    destruct data as [| | | | | |members]; simpl;
      try (intros [= <-]; right; by eexists).
    destruct (dict_get "system_id" members) as [v_id|]; simpl;
      [|intros [= <-]; left; by eexists].
    destruct (dict_get "name" members) as [v_name|]; simpl;
      [|intros [= <-]; left; by eexists].
    destruct (dict_get "position" members) as [pos|]; simpl;
      [|intros [= <-]; left; by eexists].
    destruct pos as [| | | | | |pos]; simpl;
      try (intros [= <-]; right; by eexists).
    destruct (dict_get "x" pos) as [v_x|]; simpl;
      [|intros [= <-]; left; by eexists].
    destruct (dict_get "y" pos) as [v_y|]; simpl;
      [|intros [= <-]; left; by eexists].
    destruct (dict_get "z" pos) as [v_z|]; simpl;
      [|intros [= <-]; left; by eexists].
    done.
Qed.

(** X9: What leaves the client: never a [KeyError]; of the library's
    exceptions only an [HTTPError] whose status is not 404; and no
    [ValueError] but the "System ID ... not found" one. *)
Theorem client_exceptions (id : Z) (st st' : state) (e : exn) :
  get_system_info id st = (Raise e, st') ->
  is_KeyError e = false /\
  (is_RequestException e = true ->
     exists c m, e = HTTPError c m /\ c <> 404) /\
  (is_ValueError e = true ->
     e = ValueError ("System ID " +:+ pretty id +:+ " not found")).
Proof.
  unfold get_system_info, try_except.
  destruct (bind _ _ st) as [[d|e0] st0]; [done|].
  destruct e0 as [c m| | | | | | | | | | |]; simpl; unfold raise;
    try (intros [= <- <-]; done).
  destruct c as [|c|c];
    try (intros [= <- <-]; split; [done|split; [intros H; first [discriminate H|by eexists _, _]|done]]).
  repeat (destruct c as [c|c|];
          try (intros [= <- <-]; split; [done|split; [intros H; first [discriminate H|by eexists _, _]|done]])).
Qed.

(** ** Requests sent *)

Lemma insert_system_calls (i n vx vy vz : json_value) (st : state) :
  calls (snd (insert_system i n vx vy vz st)) = calls st.
Proof.
  unfold insert_system, bind, utcnow, lift, execute_insert. simpl.
  destruct (sqlite_bind i n vx vy vz) as [p|e]; simpl; [|done].
  by destruct (db st !! b_system_id p).
Qed.

Lemma resolution_calls (id : Z) (st : state) :
  calls (snd (get_or_fetch_system id st)) =
  (calls st ++ match db st !! id with Some _ => [] | None => [id] end)%list.
Proof.
  destruct (db st !! id) as [row|] eqn:Hdb.
  - rewrite (cache_hit id st row Hdb). simpl. by rewrite app_nil_r.
  - unfold get_or_fetch_system, bind at 1, get_system at 1. simpl.
    rewrite Hdb. unfold bind at 1.
    pose proof (get_system_info_state id st) as Hst.
    destruct (get_system_info id st) as [[d|e] st0]; simpl in Hst; subst st0;
      [|done].
    unfold bind at 1.
    pose proof (insert_system_calls (esi_system_id d) (esi_name d) (esi_x d)
                  (esi_y d) (esi_z d) (called id st)) as Hins.
    destruct (insert_system _ _ _ _ _ (called id st)) as [[[]|e] st1];
      simpl in Hins; [|done].
    unfold bind, get_system. simpl.
    by destruct (db st1 !! id).
Qed.

(** X10: No retry: a resolution sends no request when the id is in the table
    and exactly one, for that id, when it is not; a request to the
    endpoint sends at most two, each for one of its two ids. *)
Theorem requests_sent (st : state) :
  (forall id,
     calls (snd (get_or_fetch_system id st)) =
     (calls st ++ match db st !! id with Some _ => [] | None => [id] end)%list) /\
  (forall o1 o2,
     exists sent,
       calls (snd (calculate_distance_endpoint o1 o2 st)) =
         (calls st ++ sent)%list /\
       (length sent <= 2)%nat /\
       forall k, k ∈ sent -> o1 = Some k \/ o2 = Some k).
Proof.
  split; [intros id; apply resolution_calls|].
  intros o1 o2. unfold calculate_distance_endpoint.
  assert (Hnone : exists sent : list Z,
            calls st = (calls st ++ sent)%list /\ (length sent <= 2)%nat /\
            forall k, k ∈ sent -> o1 = Some k \/ o2 = Some k).
  { exists []. rewrite app_nil_r. split; [done|]. split; [simpl; lia|].
    intros k Hk. by apply elem_of_nil in Hk. }
  destruct o1 as [id1|], o2 as [id2|]; simpl; try exact Hnone.
  destruct (validate_system_id id1) as [[] ?]; simpl; [|exact Hnone].
  destruct (validate_system_id id2) as [[] ?]; simpl; [|exact Hnone].
  clear Hnone.
  assert (Hsent : exists sent : list Z,
            calls (snd (try_block id1 id2 st)) = (calls st ++ sent)%list /\
            (length sent <= 2)%nat /\
            forall k, k ∈ sent -> Some id1 = Some k \/ Some id2 = Some k).
  { unfold try_block, bind at 1.
    pose proof (resolution_calls id1 st) as H1.
    destruct (get_or_fetch_system id1 st) as [[r1|e1] st1]; simpl in H1.
    - unfold bind at 1.
      pose proof (resolution_calls id2 st1) as H2.
      destruct (get_or_fetch_system id2 st1) as [[r2|e2] st2]; simpl in H2.
      + exists (match db st !! id1 with Some _ => [] | None => [id1] end ++
                match db st1 !! id2 with Some _ => [] | None => [id2] end)%list.
        split.
        { unfold bind, lift, ret.
          destruct (Calculator.calculate_distance _ _); simpl;
            by rewrite H2, H1, app_assoc. }
        split; [by destruct (db st !! id1), (db st1 !! id2); simpl; lia|].
        intros k [Hk|Hk]%elem_of_app.
        * destruct (db st !! id1); [by apply elem_of_nil in Hk|].
          apply list_elem_of_singleton in Hk. left. congruence.
        * destruct (db st1 !! id2); [by apply elem_of_nil in Hk|].
          apply list_elem_of_singleton in Hk. right. congruence.
      + exists (match db st !! id1 with Some _ => [] | None => [id1] end ++
                match db st1 !! id2 with Some _ => [] | None => [id2] end)%list.
        split; [simpl; by rewrite H2, H1, app_assoc|].
        split; [by destruct (db st !! id1), (db st1 !! id2); simpl; lia|].
        intros k [Hk|Hk]%elem_of_app.
        * destruct (db st !! id1); [by apply elem_of_nil in Hk|].
          apply list_elem_of_singleton in Hk. left. congruence.
        * destruct (db st1 !! id2); [by apply elem_of_nil in Hk|].
          apply list_elem_of_singleton in Hk. right. congruence.
    - exists (match db st !! id1 with Some _ => [] | None => [id1] end).
      split; [by simpl|].
      split; [by destruct (db st !! id1); simpl; lia|].
      intros k Hk.
      destruct (db st !! id1); [by apply elem_of_nil in Hk|].
      apply list_elem_of_singleton in Hk. left. congruence. }
  by destruct (try_block id1 id2 st) as [[?|?] ?].
Qed.

(** ** The endpoint, reply by reply *)


Lemma validate_message (id : Z) :
  validate_system_id id = (true, "") \/
  validate_system_id id =
    (false, "System ID must be between 30,000,000 and 31,000,000").
Proof. unfold validate_system_id. destruct (_ || _); auto. Qed.


Lemma handle_exception_replies (e : exn) :
  exists msg,
    snd (handle_exception e) = ErrorBody msg /\
    (fst (handle_exception e), msg) ∈ error_replies.
Proof.
  unfold handle_exception, error_replies.
  destruct (is_ValueError e).
  - destruct (PyStr.contains _ _); eexists; (split; [reflexivity|]);
      apply list_elem_of_In; simpl; tauto.
  - destruct (is_RuntimeError e).
    + destruct (_ || _); eexists; (split; [reflexivity|]); apply list_elem_of_In; simpl; tauto.
    + eexists; (split; [reflexivity|]); apply list_elem_of_In; simpl; tauto.
Qed.

Lemma fixed_error (status : Z) (msg : string) :
  (status, msg) ∈ error_replies -> fixed_reply (status, ErrorBody msg).
Proof. intros Hin. right. by exists msg. Qed.

Lemma endpoint_reply_fixed (o1 o2 : option Z) (st : state) :
  fixed_reply (fst (calculate_distance_endpoint o1 o2 st)).
Proof.
  unfold calculate_distance_endpoint.
  destruct o1 as [id1|], o2 as [id2|]; simpl;
    try (apply fixed_error; unfold error_replies;
         apply list_elem_of_In; simpl; tauto).
  destruct (validate_message id1) as [-> | ->]; simpl.
  2:{ apply fixed_error. unfold error_replies.
      apply list_elem_of_In; simpl; tauto. }
  destruct (validate_message id2) as [-> | ->]; simpl.
  2:{ apply fixed_error. unfold error_replies.
      apply list_elem_of_In; simpl; tauto. }
  destruct (try_block id1 id2 st) as [[response|e] st'] eqn:Htry; simpl.
  - left. split; [done|].
    unfold try_block, bind, lift, ret in Htry.
    destruct (get_or_fetch_system id1 st) as [[r1|?] st1]; [|done].
    destruct (get_or_fetch_system id2 st1) as [[r2|?] st2]; [|done].
    destruct (Calculator.calculate_distance _ _) as [d|?]; [|done].
    injection Htry as <- _. by eexists _, _, _, _, _, _.
  - right. apply handle_exception_replies.
Qed.

Lemma view_reply_fixed (data : json_value) (st st' : state)
    (reply : Z * body) :
  calculate_distance_post data st = (Ok reply, st') -> fixed_reply reply.
Proof.
  destruct data as [| | | | | |members]; simpl; try done.
  unfold calculate_distance_json.
  destruct (data_get "system_id_1" members) as [v1|].
  2:{ intros [= <- _]. apply fixed_error. unfold error_replies.
      apply list_elem_of_In; simpl; tauto. }
  destruct (data_get "system_id_2" members) as [v2|].
  2:{ intros [= <- _]. apply fixed_error. unfold error_replies.
      apply list_elem_of_In; simpl; tauto. }
  destruct (result_bind _ _) as [[n1 n2]|e].
  - pose proof (endpoint_reply_fixed (Some n1) (Some n2) st) as Hfixed.
    destruct (calculate_distance_endpoint (Some n1) (Some n2) st).
    by intros [= <- _].
  - destruct (_ || _); [|done].
    intros [= <- _]. apply fixed_error. unfold error_replies.
    apply list_elem_of_In; simpl; tauto.
Qed.

(** X12: Every reply of the view, to the query form and to a body that
    decodes as JSON alike, is a 200 with the distance body or one of
    the fixed status and message pairs: no text of an exception, of the
    upstream or of the table reaches the body.  When the view raises,
    the reply is the one of the 500 handler, which is among the fixed
    pairs as well. *)
Theorem replies_are_fixed (o1 o2 : option Z) (data : json_value)
    (st : state) :
  fixed_reply (fst (calculate_distance_endpoint o1 o2 st)) /\
  (forall reply st',
     calculate_distance_post data st = (Ok reply, st') ->
     fixed_reply reply /\ answer_post data st = (reply, st')) /\
  (forall e st',
     calculate_distance_post data st = (Raise e, st') ->
     answer_post data st = ((500, ErrorBody "Internal server error"), st')) /\
  fixed_reply (fst (answer_post data st)).
Proof.
  split; [apply endpoint_reply_fixed|].
  unfold answer_post. split; [|split].
  - intros reply st' Hview. split; [by apply (view_reply_fixed data st st')|].
    by rewrite Hview.
  - intros e st' Hview. by rewrite Hview.
  - destruct (calculate_distance_post data st) as [[reply|e] st'] eqn:Hview;
      simpl.
    + by apply (view_reply_fixed data st st').
    + apply fixed_error. unfold error_replies.
      apply list_elem_of_In; simpl; tauto.
Qed.

(** ** Resolutions that go to the client *)

Lemma kind_not_found (id : Z) :
  failure_kind (ValueError ("System ID " +:+ pretty id +:+ " not found")) =
  Some NotFound.
Proof.
  unfold failure_kind.
  replace (PyStr.contains " not found"
             ("System ID " +:+ pretty id +:+ " not found")) with true; [done|].
  symmetry. apply contains_app_r. by apply contains_app_r.
Qed.



(** X15: The upstream answers 404: the client raises the "System ID ... not
    found" [ValueError] (the NotFound kind), the resolution passes it
    on with the table untouched, and the endpoint answers 404. *)
Theorem upstream_not_found (id : Z) (st : state) (response : Response) :
  db st !! id = None ->
  net (length (calls st)) id = Ok response ->
  status_code response = 404 ->
  let e := ValueError ("System ID " +:+ pretty id +:+ " not found") in
  get_system_info id st = (Raise e, called id st) /\
  failure_kind e = Some NotFound /\
  get_or_fetch_system id st = (Raise e, called id st) /\
  db (called id st) = db st /\
  forall id1 id2 st0,
    fst (validate_system_id id1) = true ->
    fst (validate_system_id id2) = true ->
    resolved_in_request id1 id2 st0 id st ->
    calculate_distance_endpoint (Some id1) (Some id2) st0 =
      ((404, ErrorBody "One or more system IDs not found in EVE Online universe"),
       called id st).
Proof.
  intros Hmiss Hnet Hcode e.
  assert (Hstatus : raise_for_status response =
                      Raise (HTTPError 404 "404 Client Error")).
  { unfold raise_for_status. by rewrite Hcode. }
  pose proof (get_system_info_http_error id st response 404 _ Hnet Hstatus)
    as Hinfo.
  rewrite decide_True in Hinfo by done.
  split; [exact Hinfo|]. split; [apply kind_not_found|].
  split; [by apply cache_miss_fails|]. split; [done|].
  intros id1 id2 st0 H1 H2 Hin.
  rewrite <- (handle_not_found id).
  by apply (request_fails_with id1 id2 st0 id st).
Qed.

(** X16: A 200 reports what the table holds afterwards: both ids have a row,
    the body carries the system_id and name of those rows, and the two
    distances are the distance function's outputs on their x, y, z. *)
Theorem ok_reply_reports_the_table (id1 id2 : Z) (st st' : state) (b : body) :
  calculate_distance_endpoint (Some id1) (Some id2) st = ((200, b), st') ->
  exists r1 r2 d,
    db st' !! id1 = Some r1 /\
    db st' !! id2 = Some r2 /\
    Calculator.calculate_distance (row_coords r1) (row_coords r2) = Ok d /\
    b = DistanceBody (system_id r1) (name r1) (system_id r2) (name r2)
          (Calculator.distance_meters d) (Calculator.distance_lightyears d).
Proof.
  unfold calculate_distance_endpoint.
  destruct (validate_message id1) as [-> | ->]; simpl; [|done].
  destruct (validate_message id2) as [-> | ->]; simpl; [|done].
  destruct (try_block id1 id2 st) as [[response|e] st2] eqn:Htry.
  2:{ intros [= Hreply _].
      destruct (handle_exception_replies e) as (msg & _ & Hin).
      rewrite Hreply in Hin. unfold error_replies in Hin.
      apply list_elem_of_In in Hin. simpl in Hin.
      repeat (destruct Hin as [[=]|Hin]); done. }
  intros [= <- <-].
  unfold try_block, bind at 1 in Htry.
  destruct (get_or_fetch_system id1 st) as [[s1|?] st1] eqn:Hfirst; [|done].
  unfold bind at 1 in Htry.
  destruct (get_or_fetch_system id2 st1) as [[s2|?] st2'] eqn:Hsecond; [|done].
  unfold bind, lift, ret in Htry.
  destruct (Calculator.calculate_distance _ _) as [d|?] eqn:Hd; [|done].
  injection Htry as <- <-.
  destruct (resolved_is_cached id1 st st1 s1 Hfirst) as (r1' & Hr1' & Hid1).
  destruct (resolved_is_cached id2 st1 st2' s2 Hsecond) as (r2 & Hr2 & Hid2).
  pose proof (respects_get_or_fetch_system rows_kept rows_kept_refl
                rows_kept_trans rows_kept_insert rows_kept_update
                rows_kept_request id2 st1 id1 r1' Hr1') as (r1 & Hr1 & Hid1').
  rewrite Hsecond in Hr1. simpl in Hr1.
  pose proof (same_identity_trans _ _ _ Hid1 Hid1') as (E1 & E2 & E3 & E4 & E5 & _).
  destruct Hid2 as (F1 & F2 & F3 & F4 & F5 & _).
  exists r1, r2, d. split; [done|]. split; [done|].
  unfold row_coords in *.
  rewrite <- E1, <- E2, <- E3, <- E4, <- E5, <- F1, <- F2, <- F3, <- F4, <- F5.
  by split.
Qed.

(** ** The JSON form of a request *)

Lemma is_infinity_spec (f : float) (s : bool) :
  Prim2SF f = S754_infinity s -> is_infinity f = true.
Proof.
  intros Hf. unfold is_infinity.
  rewrite FloatAxioms.eqb_spec, abs_spec, Hf. reflexivity.
Qed.

Lemma py_int_raises (v : json_value) (e : exn) :
  py_int v = Raise e ->
  is_ValueError e || is_TypeError e = true \/
  exists f, v = JFloat f /\ is_infinity f = true /\
            e = OverflowError "cannot convert float infinity to integer".
Proof.
  destruct v as [| | |f|s| |]; simpl;
    try (by intros [=]); try (intros [= <-]; by left).
  - unfold int_of_float.
    destruct (Prim2SF f) as [|sg| |] eqn:Hf;
      try (by intros [=]); intros [= <-]; [|by left].
    right. exists f. eauto using is_infinity_spec.
  - destruct (int_of_str s); [by intros [=]|]. intros [= <-]. by left.
Qed.

(** X19: A JSON body whose two values convert with [int] (an integer, a
    boolean, a finite float cut toward zero, a numeral string) is
    answered as the query form is on the converted integers, with the
    same effects. *)
Theorem json_request_as_query (data : list (string * json_value))
    (v1 v2 : json_value) (n1 n2 : Z) (st : state) :
  data_get "system_id_1" data = Some v1 ->
  data_get "system_id_2" data = Some v2 ->
  py_int v1 = Ok n1 ->
  py_int v2 = Ok n2 ->
  calculate_distance_json data st =
    (Ok (fst (calculate_distance_endpoint (Some n1) (Some n2) st)),
     snd (calculate_distance_endpoint (Some n1) (Some n2) st)).
Proof.
  intros H1 H2 Hn1 Hn2. unfold calculate_distance_json.
  rewrite H1, H2, Hn1. unfold result_bind. rewrite Hn2.
  by destruct (calculate_distance_endpoint (Some n1) (Some n2) st).
Qed.

Lemma int_of_infinity (f : float) :
  is_infinity f = true ->
  py_int (JFloat f) =
    Raise (OverflowError "cannot convert float infinity to integer").
Proof.
  unfold is_infinity. rewrite FloatAxioms.eqb_spec, abs_spec.
  simpl. unfold int_of_float.
  by destruct (Prim2SF f).
Qed.

(** X20: A JSON body that is an object in which an id is absent or null is
    answered 400 "Both ... are required", and one in which both are
    there and the first that [int] does not convert makes it raise
    [ValueError] or [TypeError] (a list, an object, a NaN, a string that
    is no numeral) is answered 400 "System IDs must be valid integers";
    in both cases nothing else happens. *)
Theorem json_request_rejected (members : list (string * json_value))
    (st : state) :
  (data_get "system_id_1" members = None \/
   data_get "system_id_2" members = None ->
   calculate_distance_post (JObj members) st =
     (Ok (400, ErrorBody "Both system_id_1 and system_id_2 are required"), st)) /\
  (forall v1 v2 e,
     data_get "system_id_1" members = Some v1 ->
     data_get "system_id_2" members = Some v2 ->
     result_bind (py_int v1) (fun n1 =>
       result_bind (py_int v2) (fun n2 => Ok (n1, n2))) = Raise e ->
     is_ValueError e || is_TypeError e = true ->
     calculate_distance_post (JObj members) st =
       (Ok (400, ErrorBody "System IDs must be valid integers"), st)).
Proof.
  unfold calculate_distance_post, calculate_distance_json. split.
  - intros [H|H]; rewrite H; [done|].
    by destruct (data_get "system_id_1" members).
  - intros v1 v2 e H1 H2 Hint He. by rewrite H1, H2, Hint, He.
Qed.

(** X21: On a body that decodes as JSON the view function lets an
    exception out in two cases only, and nothing has happened by then:
    the JSON value is not an object, and
    [data.get] raises [AttributeError]; or it is an object with both
    ids in which the first that [int] does not convert is an infinite
    float, and [int] raises [OverflowError], which [except (ValueError,
    TypeError)] lets pass. *)
Theorem json_view_raises (data : json_value) (st : state) :
  (forall e st',
     calculate_distance_post data st = (Raise e, st') ->
     st' = st /\
     ((exists m, e = AttributeError m) \/
      e = OverflowError "cannot convert float infinity to integer")) /\
  ((exists m, calculate_distance_post data st = (Raise (AttributeError m), st))
   <-> is_object data = false) /\
  (calculate_distance_post data st =
     (Raise (OverflowError "cannot convert float infinity to integer"), st)
   <-> exists members, data = JObj members /\ infinite_id members).
Proof.
  assert (Hobj : forall members e st',
            calculate_distance_json members st = (Raise e, st') ->
            st' = st /\
            e = OverflowError "cannot convert float infinity to integer" /\
            infinite_id members).
  { intros members e st'. unfold calculate_distance_json, infinite_id.
    destruct (data_get "system_id_1" members) as [v1|]; [|done].
    destruct (data_get "system_id_2" members) as [v2|]; [|done].
    unfold result_bind.
    destruct (py_int v1) as [n1|e1] eqn:H1.
    - destruct (py_int v2) as [n2|e2] eqn:H2.
      + by destruct (calculate_distance_endpoint (Some n1) (Some n2) st).
      + destruct (py_int_raises v2 e2 H2) as [-> | (f & -> & Hf & ->)];
          [done|].
        simpl. intros [= <- <-]. split; [done|]. split; [done|].
        right. by exists v1, n1, f.
    - destruct (py_int_raises v1 e1 H1) as [-> | (f & -> & Hf & ->)];
        [done|].
      simpl. intros [= <- <-]. split; [done|]. split; [done|].
      left. by exists f, v2. }
  split; [|split].
  - intros e st'.
    destruct data as [| | | | | |members]; simpl;
      try (intros [= <- <-]; split; [done|left; by eexists]).
    intros Hraise. destruct (Hobj members e st' Hraise) as (-> & -> & _).
    split; [done|by right].
  - destruct data as [| | | | | |members]; simpl;
      try (split; [done|intros _; by eexists]).
    split; [|done]. intros [m Hraise].
    by destruct (Hobj members _ _ Hraise) as (_ & [=] & _).
  - destruct data as [| | | | | |members]; simpl;
      try (split; [done|by intros (members & [=] & _)]).
    split.
    + intros Hraise. destruct (Hobj members _ _ Hraise) as (_ & _ & Hinf).
      by exists members.
    + intros (members' & [= <-] & Hinf). unfold calculate_distance_json.
      destruct Hinf as [(f & v2 & H1 & Hf & H2)|(v1 & n1 & f & H1 & Hn1 & H2 & Hf)].
      * by rewrite H1, H2, (int_of_infinity f Hf).
      * rewrite H1, H2, Hn1. unfold result_bind.
        by rewrite (int_of_infinity f Hf).
Qed.

(** X18: Nothing is rolled back: when the first system resolves and the
    second fails, the reply is the one for the failure, and the first
    system's row is in the table the request leaves behind. *)
Theorem failed_request_keeps_first_row (id1 id2 : Z) (st st1 st2 : state)
    (r1 : Row) (e : exn) :
  fst (validate_system_id id1) = true ->
  fst (validate_system_id id2) = true ->
  get_or_fetch_system id1 st = (Ok r1, st1) ->
  get_or_fetch_system id2 st1 = (Raise e, st2) ->
  calculate_distance_endpoint (Some id1) (Some id2) st =
    (handle_exception e, st2) /\
  exists r, db st2 !! id1 = Some r /\ same_identity r1 r.
Proof.
  intros H1 H2 Hfirst Hsecond. split.
  - apply endpoint_raises; [done|done|].
    apply (try_block_raises id1 id2 st id2 st1 st2 e); [|done].
    right. eauto.
  - destruct (resolved_is_cached id1 st st1 r1 Hfirst) as (r & Hr & Hid).
    pose proof (respects_get_or_fetch_system rows_kept rows_kept_refl
                  rows_kept_trans rows_kept_insert rows_kept_update
                  rows_kept_request id2 st1 id1 r Hr) as (r' & Hr' & Hid').
    rewrite Hsecond in Hr'. simpl in Hr'.
    eauto using same_identity_trans.
Qed.

End World.

(** ** The claims about the distance function *)

Section Distance.
Import Calculator.
Local Open Scope float_scope.

Lemma finite_cases (v : float) :
  is_finite v = true ->
  (exists s, Prim2SF v = S754_zero s) \/
  (exists s m e, Prim2SF v = S754_finite s m e).
Proof.
  unfold is_finite, is_nan, is_infinity.
  rewrite !FloatAxioms.eqb_spec, abs_spec.
  destruct (Prim2SF v) as [s|s| |s m e].
  - eauto.
  - destruct s; discriminate.
  - discriminate.
  - eauto 6.
Qed.

Lemma sub_diag (v : float) : is_finite v = true -> v - v = 0.
Proof.
  intros Hfin.
  rewrite <- (SF2Prim_Prim2SF (v - v)), sub_spec.
  destruct (finite_cases v Hfin) as [[s ->] | (s & m & e & ->)].
  - destruct s; reflexivity.
  - unfold SF64sub, SFsub. rewrite Z.sub_diag. reflexivity.
Qed.

(** C6, as the code has it: for a record whose x, y and z are finite
    floats, the distance to itself is 0.0 in meters and in light-years. *)
Theorem distance_to_self_is_zero (a : coords) :
  is_finite (cx a) = true ->
  is_finite (cy a) = true ->
  is_finite (cz a) = true ->
  calculate_distance a a = Ok (Distance 0 0).
Proof.
  intros Hx Hy Hz. unfold calculate_distance.
  rewrite (sub_diag _ Hx), (sub_diag _ Hy), (sub_diag _ Hz).
  reflexivity.
Qed.

(** The operand of [math.sqrt] is a sum of squares, which is never
    negative: the distance function raises nothing but [OverflowError]. *)

Lemma round_not_negative (m e : Z) (l : location) :
  not_negative (binary_round_aux prec emax false m e l) = true.
Proof.
  unfold binary_round_aux.
  destruct (shr_fexp prec emax m e l) as [mrs e'].
  destruct (shr_fexp prec emax _ e' loc_Exact) as [mrs' e''].
  destruct (shr_m mrs'); [done| |done].
  by destruct (e'' <=? emax - prec)%Z.
Qed.

Lemma square_not_negative (v : float) :
  not_negative (Prim2SF (v * v)) = true.
Proof.
  rewrite mul_spec. unfold SF64mul, SFmul.
  destruct (Prim2SF v) as [s|s| |s m e]; simpl;
    rewrite ?xorb_nilpotent; try done.
  apply round_not_negative.
Qed.

Lemma add_not_negative (a b : float) :
  not_negative (Prim2SF a) = true ->
  not_negative (Prim2SF b) = true ->
  not_negative (Prim2SF (a + b)) = true.
Proof.
  rewrite add_spec. unfold SF64add, SFadd.
  destruct (Prim2SF a) as [sa|sa| |sa ma ea],
           (Prim2SF b) as [sb|sb| |sb mb eb]; simpl; try done.
  - by destruct sa, sb.
  - by destruct sa, sb.
  - destruct sa, sb; try done. intros _ _. simpl.
    unfold binary_normalize, binary_round.
    destruct (shl_align _ _ _) as [mz ez]. apply round_not_negative.
Qed.

Lemma not_negative_ltb (v : float) :
  not_negative (Prim2SF v) = true -> (v <? 0) = false.
Proof.
  rewrite ltb_spec. change (Prim2SF 0) with (S754_zero false).
  unfold SFltb, SFcompare.
  by destruct (Prim2SF v) as [s|[]| |[] m e].
Qed.

Lemma pow2_cases (v : float) :
  pow2 v = Ok (v * v) \/ exists m, pow2 v = Raise (OverflowError m).
Proof.
  unfold pow2. destruct (is_finite v && is_infinity (v * v)); eauto.
Qed.



(** C8: the two worked examples.  From the origin to
    (9460000000000000.0, 0, 0) the distance is 9460000000000000.0 meters
    and 1.0 light-years; from the origin to (3, 4, 12) it is 13.0 meters. *)
Theorem worked_examples :
  calculate_distance (Coords 0 0 0) (Coords 9460000000000000.0 0 0) =
    Ok (Distance 9460000000000000.0 1) /\
  exists lightyears,
    calculate_distance (Coords 0 0 0) (Coords 3 4 12) =
      Ok (Distance 13 lightyears).
Proof.
  split; [vm_compute; reflexivity|].
  eexists. vm_compute. reflexivity.
Qed.

(** ** Symmetry and sign of the distance *)

Lemma is_finite_spec (v : float) : is_finite v = sf_finite (Prim2SF v).
Proof.
  unfold is_finite, is_nan, is_infinity.
  rewrite !FloatAxioms.eqb_spec, abs_spec.
  destruct (Prim2SF v) as [s|[]| |s m e]; try reflexivity.
  unfold SFeqb, SFcompare. simpl SFabs. cbv iota.
  rewrite Z.compare_refl, Pos.compare_cont_refl.
  by destruct s.
Qed.

Lemma round_aux_abs (s : bool) (m e : Z) (l : location) :
  SFabs (binary_round_aux prec emax s m e l) =
  SFabs (binary_round_aux prec emax false m e l).
Proof.
  unfold binary_round_aux.
  destruct (shr_fexp prec emax m e l) as [mrs e'].
  destruct (shr_fexp prec emax _ e' loc_Exact) as [mrs' e''].
  destruct (shr_m mrs'); [done| |done].
  by destruct (e'' <=? emax - prec)%Z.
Qed.

Lemma normalize_opp_abs (m e : Z) :
  SFabs (binary_normalize prec emax (- m) e false) =
  SFabs (binary_normalize prec emax m e false).
Proof.
  destruct m as [|p|p]; simpl; [done| |];
    unfold binary_round; destruct (shl_align _ _ _) as [mz ez];
    by rewrite (round_aux_abs true).
Qed.

Lemma sub_swap_abs (u v : spec_float) :
  SFabs (SFsub prec emax u v) = SFabs (SFsub prec emax v u).
Proof.
  destruct u as [su|su| |su mu eu], v as [sv|sv| |sv mv ev]; simpl;
    try done; try (by destruct su, sv).
  rewrite <- normalize_opp_abs, Z.opp_sub_distr, Z.add_comm.
  change (IntDef.Z.min eu ev) with (Z.min eu ev).
  change (IntDef.Z.min ev eu) with (Z.min ev eu).
  by rewrite (Z.min_comm ev eu), Z.add_opp_r.
Qed.

Lemma mul_self_abs (u v : spec_float) :
  SFabs u = SFabs v -> SFmul prec emax u u = SFmul prec emax v v.
Proof.
  destruct u as [su|su| |su mu eu], v as [sv|sv| |sv mv ev]; simpl;
    try done; rewrite ?xorb_nilpotent; try done.
  by intros [= -> ->].
Qed.

Lemma sf_finite_abs (u v : spec_float) :
  SFabs u = SFabs v -> sf_finite u = sf_finite v.
Proof. by destruct u, v. Qed.

Lemma Prim2SF_eq (a b : float) : Prim2SF a = Prim2SF b -> a = b.
Proof.
  intros H. by rewrite <- (SF2Prim_Prim2SF a), <- (SF2Prim_Prim2SF b), H.
Qed.

Lemma pow2_swap (a b : float) : pow2 (a - b) = pow2 (b - a).
Proof.
  assert (Habs : SFabs (Prim2SF (a - b)) = SFabs (Prim2SF (b - a))).
  { rewrite !sub_spec. apply sub_swap_abs. }
  assert (Hsq : (a - b) * (a - b) = (b - a) * (b - a)).
  { apply Prim2SF_eq. rewrite !mul_spec. by apply mul_self_abs. }
  unfold pow2. rewrite Hsq, !is_finite_spec.
  by rewrite (sf_finite_abs _ _ Habs).
Qed.

(** X1: The distance function is symmetric: the two orders of the records
    give the same outcome, the same two floats or the same exception. *)
Theorem distance_is_symmetric (a b : coords) :
  calculate_distance a b = calculate_distance b a.
Proof.
  unfold calculate_distance.
  by rewrite (pow2_swap (cx b)), (pow2_swap (cy b)), (pow2_swap (cz b)).
Qed.

Lemma sqrt_not_negative (v : float) :
  not_negative (Prim2SF v) = true -> not_negative (Prim2SF (sqrt v)) = true.
Proof.
  rewrite sqrt_spec. unfold SF64sqrt, SFsqrt.
  destruct (Prim2SF v) as [s|[]| |[] m e]; try done.
  intros _. destruct (SFsqrt_core_binary _ _ _ _) as [[mz ez] lz].
  apply round_not_negative.
Qed.

Lemma lightyears_not_negative (v : float) :
  not_negative (Prim2SF v) = true ->
  not_negative (Prim2SF (v / Config.LIGHTYEAR_IN_METERS)) = true.
Proof.
  rewrite div_spec. unfold SF64div, SFdiv.
  assert (exists m e, Prim2SF Config.LIGHTYEAR_IN_METERS = S754_finite false m e)
    as (mc & ec & ->) by (eexists _, _; vm_compute; reflexivity).
  destruct (Prim2SF v) as [s|[]| |[] m e]; try done.
  intros _. destruct (SFdiv_core_binary _ _ _ _ _ _) as [[mz ez] lz].
  apply round_not_negative.
Qed.

(** X2: Neither output of the distance function is ever below zero. *)
Theorem distance_is_never_negative (a b : coords) (d : distance) :
  calculate_distance a b = Ok d ->
  (distance_meters d <? 0) = false /\ (distance_lightyears d <? 0) = false.
Proof.
  unfold calculate_distance.
  destruct (pow2_cases (cx b - cx a)) as [-> | [m ->]]; [|done].
  destruct (pow2_cases (cy b - cy a)) as [-> | [m ->]]; [|done].
  destruct (pow2_cases (cz b - cz a)) as [-> | [m ->]]; [|done].
  simpl. unfold math_sqrt.
  set (sum := (cx b - cx a) * (cx b - cx a) + (cy b - cy a) * (cy b - cy a)
              + (cz b - cz a) * (cz b - cz a)).
  assert (Hsum : not_negative (Prim2SF sum) = true)
    by (unfold sum; repeat apply add_not_negative; apply square_not_negative).
  rewrite (not_negative_ltb _ Hsum). simpl. intros [= <-]. simpl.
  split; apply not_negative_ltb;
    auto using sqrt_not_negative, lightyears_not_negative.
Qed.

(** Two records with the same finite x, y and z are at distance 0.0. *)
Lemma distance_of_equal_coords (a b : coords) :
  cx b = cx a -> cy b = cy a -> cz b = cz a ->
  is_finite (cx a) = true -> is_finite (cy a) = true ->
  is_finite (cz a) = true ->
  calculate_distance a b = Ok (Distance 0 0).
Proof.
  destruct a as [ax ay az], b as [bx by' bz]. simpl.
  intros -> -> -> Hx Hy Hz. unfold calculate_distance. simpl.
  rewrite (sub_diag _ Hx), (sub_diag _ Hy), (sub_diag _ Hz).
  reflexivity.
Qed.

End Distance.

(** ** A request for one system twice *)

Section SameSystem.

Variable clock : nat -> timestamp.
Variable net : nat -> Z -> result Response.
Variable sqlite_bind :
  json_value -> json_value -> json_value -> json_value -> json_value ->
  result bound_params.

(** X17: A request whose two ids are the same, accepted id, for a system
    that resolves to finite coordinates, is answered 200 with that
    system on both sides and both distances 0.0. *)
Theorem same_system_twice (id : Z) (st st1 : state) (r : Row) :
  fst (validate_system_id id) = true ->
  get_or_fetch_system clock net sqlite_bind id st = (Ok r, st1) ->
  is_finite (x r) = true ->
  is_finite (y r) = true ->
  is_finite (z r) = true ->
  exists st2,
    calculate_distance_endpoint clock net sqlite_bind (Some id) (Some id) st =
      ((200, DistanceBody (system_id r) (name r) (system_id r) (name r) 0 0),
       st2).
Proof.
  intros Hvalid Hfirst Hx Hy Hz.
  destruct (resolved_is_cached clock net sqlite_bind id st st1 r Hfirst)
    as (r' & Hr' & Hid & Hname & Ex & Ey & Ez & _).
  pose proof (cache_hit clock net sqlite_bind id st1 r' Hr') as Hsecond.
  assert (Hd : Calculator.calculate_distance (row_coords r) (row_coords r') =
               Ok (Calculator.Distance 0 0)).
  { apply distance_of_equal_coords; simpl; done. }
  unfold calculate_distance_endpoint.
  destruct (validate_system_id id) as [v m]. simpl in Hvalid. subst v. simpl.
  unfold try_block, bind. rewrite Hfirst, Hsecond. unfold lift. rewrite Hd.
  unfold ret. simpl. rewrite <- Hid, <- Hname. by eexists.
Qed.

End SameSystem.


(** ** Concrete runs

    The theorems above, applied in the environment of [Scenario], and the
    inputs at which the specification's own wording does not hold. *)

Section Runs.
Import Calculator.

Local Abbreviation resolve :=
  (get_or_fetch_system Scenario.clock Scenario.net Scenario.sqlite_bind).
Local Abbreviation fetch := (get_system_info Scenario.net).
Local Abbreviation request :=
  (calculate_distance_endpoint Scenario.clock Scenario.net Scenario.sqlite_bind).
Local Abbreviation run :=
  (run_ops Scenario.clock Scenario.net Scenario.sqlite_bind).
Local Abbreviation resolve_mirrored :=
  (get_or_fetch_system Scenario.clock Mirror.net Scenario.sqlite_bind).
Local Abbreviation request_mirrored :=
  (calculate_distance_endpoint Scenario.clock Mirror.net Scenario.sqlite_bind).



(** A timeout on the first system, and a 503 on the first system. *)
Lemma transient_upstream_status_witness :
  request (Some 30000146) (Some 30000142) init_state =
    ((502, ErrorBody
             "Unable to retrieve system information. Please try again later."),
     called 30000146 init_state) /\
  request (Some 30000145) (Some 30000142) init_state =
    ((500, ErrorBody "An unexpected error occurred"),
     called 30000145 init_state).
Proof.
  split.
  - destruct (transient_upstream_status
                Scenario.clock Scenario.net Scenario.sqlite_bind
                30000146 init_state) as [Hfails _]; [reflexivity|].
    destruct (Hfails "Connection timeout") as (_ & _ & _ & Hrequest).
    + left. reflexivity.
    + apply Hrequest; [reflexivity|reflexivity|].
      left. split; reflexivity.
  - destruct (transient_upstream_status
                Scenario.clock Scenario.net Scenario.sqlite_bind
                30000145 init_state) as [_ Hstatus]; [reflexivity|].
    destruct (Hstatus {| status_code := 503;
                         json := Raise (RequestsJSONDecodeError "Expecting value: line 1 column 1 (char 0)") |})
      as (m & _ & _ & _ & Hrequest).
    + reflexivity.
    + simpl. lia.
    + simpl. lia.
    + apply Hrequest; [reflexivity|reflexivity|].
      left. split; reflexivity.
Defined.

(** C2 as the specification words it fails: on a 503 from upstream the
    client raises the library's [HTTPError], which is none of the three
    kinds, and the endpoint answers 500, not 502. *)
Lemma server_error_is_not_502 :
  fetch 30000145 init_state =
    (Raise (HTTPError 503 "503 Server Error"), called 30000145 init_state) /\
  failure_kind (HTTPError 503 "503 Server Error") = None /\
  fst (fst (request (Some 30000145) (Some 30000142) init_state)) = 500 /\
  fst (fst (request (Some 30000145) (Some 30000142) init_state)) <> 502.
Proof.
  split; [vm_compute; reflexivity|]. split; [reflexivity|].
  split; [vm_compute; reflexivity|]. vm_compute. discriminate.
Qed.

(** A resolution that times out on an empty table. *)
Lemma resolver_failure_propagates_witness :
  let e := RuntimeError "Failed to fetch system data from ESI: Connection timeout" in
  resolve 30000146 init_state = (Raise e, called 30000146 init_state) /\
  db (called 30000146 init_state) = db init_state /\
  reads (called 30000146 init_state) = reads init_state.
Proof.
  apply (resolver_failure_propagates
           Scenario.clock Scenario.net Scenario.sqlite_bind
           30000146 init_state (called 30000146 init_state)).
  - reflexivity.
  - reflexivity.
Defined.

(** Jita resolved twice from the empty table. *)
Lemma resolving_twice_witness :
  let first := resolve 30000142 init_state in
  let second := resolve 30000142 (snd first) in
  exists r1 r2,
    fst first = Ok r1 /\ fst second = Ok r2 /\
    name r2 = name r1 /\ last_update r1 <= last_update r2.
Proof.
  intros first second.
  assert (exists r1, first = (Ok r1, snd first)) as [r1 Hfirst].
  { eexists. vm_compute. reflexivity. }
  assert (exists r2, second = (Ok r2, snd second)) as [r2 Hsecond].
  { eexists. vm_compute. reflexivity. }
  exists r1, r2. rewrite Hfirst, Hsecond. simpl.
  split; [done|]. split; [done|].
  destruct (resolving_twice
              Scenario.clock Scenario.net Scenario.sqlite_bind
              30000142 init_state (snd first) (snd second) r1 r2)
    as ((_ & Hname & _) & Hstamp).
  - exact Hfirst.
  - exact Hsecond.
  - split; [exact Hname|]. apply Hstamp.
    + intros n m Hnm. unfold Scenario.clock. lia.
    + intros k r Hk. vm_compute in Hk. discriminate Hk.
Defined.

(** C5 as the specification words it fails when the clock is set back.
    Jita is resolved three times from the empty table with the clock of
    [SetBack]: the second resolution returns the [last_update] written
    at the insert, the third the one written by the second, an hour
    (less two microseconds) earlier.  It fails as well, with a clock
    that only advances, on a table that was written while the clock was
    ahead. *)
Lemma resolving_twice_clock_set_back :
  (exists r1 st1 r2 st2,
     let st := run_ops SetBack.clock Scenario.net Scenario.sqlite_bind
                 [OpResolve 30000142] init_state in
     get_or_fetch_system SetBack.clock Scenario.net Scenario.sqlite_bind
       30000142 st = (Ok r1, st1) /\
     get_or_fetch_system SetBack.clock Scenario.net Scenario.sqlite_bind
       30000142 st1 = (Ok r2, st2) /\
     last_update r1 = 1771545600000000 /\
     last_update r2 = 1771545600000000 - 3600000000 + 1 /\
     last_update r2 < last_update r1) /\
  (exists r1 st1 r2 st2,
     monotone_clock Scenario.clock /\
     resolve 30000142 SetBack.ahead = (Ok r1, st1) /\
     resolve 30000142 st1 = (Ok r2, st2) /\
     last_update r2 < last_update r1).
Proof.
  split.
  - eexists _, _, _, _. cbv zeta.
    split; [vm_compute; reflexivity|].
    split; [vm_compute; reflexivity|].
    split; [reflexivity|]. split; [reflexivity|]. reflexivity.
  - eexists _, _, _, _.
    split; [intros n m Hnm; unfold Scenario.clock; lia|].
    split; [vm_compute; reflexivity|].
    split; [vm_compute; reflexivity|]. reflexivity.
Qed.

(** The Jita row through a touch, a second insert and a resolution. *)
Lemma stored_identity_is_immutable_witness :
  let st := snd (resolve 30000142 init_state) in
  let ops := [OpUpdateTimestamp 30000142;
              OpInsertSystem (JInt 30000142) (JStr "Not Jita")
                (JFloat 1) (JFloat 2) (JFloat 3);
              OpResolve 30000142] in
  exists r r',
    db st !! 30000142 = Some r /\
    db (run ops st) !! 30000142 = Some r' /\
    name r' = name r /\ x r' = x r /\ added r' = added r.
Proof.
  intros st ops.
  assert (exists r, db st !! 30000142 = Some r) as [r Hr].
  { eexists. vm_compute. reflexivity. }
  destruct (stored_identity_is_immutable
              Scenario.clock Scenario.net Scenario.sqlite_bind
              ops st 30000142 r Hr)
    as (r' & Hr' & _ & Hname & Hx & _ & _ & Hadded).
  by exists r, r'.
Defined.


(** The same-point record of the calculator's tests. *)
Lemma distance_to_self_is_zero_witness :
  calculate_distance (Coords 1000 2000 3000) (Coords 1000 2000 3000) =
    Ok (Distance 0 0).
Proof.
  apply (distance_to_self_is_zero (Coords 1000 2000 3000)); reflexivity.
Defined.

(** C6 as the specification words it fails: a record with an infinite
    coordinate is at distance NaN from itself. *)
Lemma distance_to_self_at_infinity :
  let a := Coords infinity 0 0 in
  calculate_distance a a = Ok (Distance nan nan) /\
  calculate_distance a a <> Ok (Distance 0 0).
Proof.
  split; [vm_compute; reflexivity|].
  vm_compute. intros H.
  assert (Hnan : is_nan nan = is_nan 0) by congruence.
  vm_compute in Hnan. discriminate.
Qed.

(** Five light-years along the x axis, as in the calculator's tests. *)
Lemma five_lightyears :
  calculate_distance (Coords 0 0 0) (Coords 47300000000000000.0 0 0) =
    Ok (Distance 47300000000000000.0 5).
Proof. vm_compute. reflexivity. Qed.

(** *** Further runs *)

(** Jita resolved on the empty table carries the id asked for. *)
Lemma resolution_returns_requested_id_witness :
  exists row st',
    resolve 30000142 init_state = (Ok row, st') /\ system_id row = 30000142.
Proof.
  assert (exists row st', resolve 30000142 init_state = (Ok row, st'))
    as (row & st' & Hres) by (eexists _, _; vm_compute; reflexivity).
  exists row, st'. split; [exact Hres|].
  exact (proj1 (resolution_returns_requested_id
                  Scenario.clock Scenario.net Scenario.sqlite_bind
                  [] 30000142 row st' Hres)).
Defined.

(** The Jita row after an insert and a touch. *)
Lemma added_not_after_last_update_witness :
  let st := run [OpResolve 30000142; OpResolve 30000142] init_state in
  exists r, db st !! 30000142 = Some r /\ added r <= last_update r.
Proof.
  intros st.
  assert (exists r, db st !! 30000142 = Some r) as [r Hr]
    by (eexists; vm_compute; reflexivity).
  exists r. split; [exact Hr|].
  apply (added_not_after_last_update
           Scenario.clock Scenario.net Scenario.sqlite_bind
           [OpResolve 30000142; OpResolve 30000142] 30000142 r).
  - intros n m Hnm. unfold Scenario.clock. lia.
  - exact Hr.
Defined.



(** The 503 that leaves the client as the library's error. *)
Lemma client_exceptions_witness :
  exists c m,
    fetch 30000145 init_state =
      (Raise (HTTPError c m), called 30000145 init_state) /\
    c <> 404.
Proof.
  assert (Hfetch : fetch 30000145 init_state =
            (Raise (HTTPError 503 "503 Server Error"),
             called 30000145 init_state))
    by (vm_compute; reflexivity).
  destruct (client_exceptions Scenario.net 30000145 init_state _ _ Hfetch)
    as (_ & Hreq & _).
  destruct (Hreq eq_refl) as (c & m & Heq & Hc).
  exists c, m. split; [by rewrite Hfetch, Heq|exact Hc].
Defined.




(** An id the upstream does not know. *)
Lemma upstream_not_found_witness :
  request (Some 30000999) (Some 30000142) init_state =
    ((404, ErrorBody "One or more system IDs not found in EVE Online universe"),
     called 30000999 init_state).
Proof.
  destruct (upstream_not_found
              Scenario.clock Scenario.net Scenario.sqlite_bind
              30000999 init_state
              {| status_code := 404; json := Raise (RequestsJSONDecodeError "Expecting value: line 1 column 1 (char 0)") |})
    as (_ & _ & _ & _ & Hrequest); [reflexivity|reflexivity|reflexivity|].
  apply Hrequest; [reflexivity|reflexivity|]. left. by split.
Defined.

(** A request for Jita and Jita on the empty table. *)
Lemma ok_reply_reports_the_table_witness :
  exists b st' r,
    request (Some 30000142) (Some 30000142) init_state = ((200, b), st') /\
    db st' !! 30000142 = Some r /\
    exists meters lightyears,
      b = DistanceBody (system_id r) (name r) (system_id r) (name r)
            meters lightyears.
Proof.
  assert (exists b st',
            request (Some 30000142) (Some 30000142) init_state = ((200, b), st'))
    as (b & st' & Hreq) by (eexists _, _; vm_compute; reflexivity).
  destruct (ok_reply_reports_the_table
              Scenario.clock Scenario.net Scenario.sqlite_bind
              30000142 30000142 init_state st' b Hreq)
    as (r1 & r2 & d & Hr1 & Hr2 & _ & Hb).
  exists b, st', r1. split; [exact Hreq|]. split; [exact Hr1|].
  assert (r2 = r1) as -> by congruence. by eexists _, _.
Defined.

(** A float and a numeral string as the two ids of a JSON body. *)
Lemma json_request_as_query_witness :
  calculate_distance_json
    Scenario.clock Scenario.net Scenario.sqlite_bind Mirror.int_of_str
    [("system_id_1", JFloat 30000142.5); ("system_id_2", JStr "30000142")]
    init_state =
  (Ok (fst (request (Some 30000142) (Some 30000142) init_state)),
   snd (request (Some 30000142) (Some 30000142) init_state)).
Proof.
  apply (json_request_as_query
           Scenario.clock Scenario.net Scenario.sqlite_bind Mirror.int_of_str
           [("system_id_1", JFloat 30000142.5); ("system_id_2", JStr "30000142")]
           (JFloat 30000142.5) (JStr "30000142"));
    vm_compute; reflexivity.
Defined.

(** A body without the second id, and one whose first id is a list. *)
Lemma json_request_rejected_witness :
  calculate_distance_post
    Scenario.clock Scenario.net Scenario.sqlite_bind Mirror.int_of_str
    (JObj [("system_id_1", JInt 30000142)]) init_state =
    (Ok (400, ErrorBody "Both system_id_1 and system_id_2 are required"),
     init_state) /\
  calculate_distance_post
    Scenario.clock Scenario.net Scenario.sqlite_bind Mirror.int_of_str
    (JObj [("system_id_1", JArr []); ("system_id_2", JInt 30000142)])
    init_state =
    (Ok (400, ErrorBody "System IDs must be valid integers"), init_state).
Proof.
  split.
  - apply (proj1 (json_request_rejected
                    Scenario.clock Scenario.net Scenario.sqlite_bind
                    Mirror.int_of_str
                    [("system_id_1", JInt 30000142)] init_state)).
    right. reflexivity.
  - apply (proj2 (json_request_rejected
                    Scenario.clock Scenario.net Scenario.sqlite_bind
                    Mirror.int_of_str
                    [("system_id_1", JArr []); ("system_id_2", JInt 30000142)]
                    init_state)
             (JArr []) (JInt 30000142)
             (TypeError "int() argument must be a string, a bytes-like object or a real number, not 'list'"));
      reflexivity.
Defined.

(** An infinite float as the first id of a JSON body, and a body that is
    an array. *)
Lemma json_view_raises_witness :
  calculate_distance_post
    Scenario.clock Scenario.net Scenario.sqlite_bind Mirror.int_of_str
    (JObj [("system_id_1", JFloat infinity); ("system_id_2", JInt 30000142)])
    init_state =
    (Raise (OverflowError "cannot convert float infinity to integer"),
     init_state) /\
  exists m,
    calculate_distance_post
      Scenario.clock Scenario.net Scenario.sqlite_bind Mirror.int_of_str
      (JArr [JInt 30000142; JInt 30000142]) init_state =
      (Raise (AttributeError m), init_state).
Proof.
  split.
  - apply (proj2 (json_view_raises
                    Scenario.clock Scenario.net Scenario.sqlite_bind
                    Mirror.int_of_str
                    (JObj [("system_id_1", JFloat infinity);
                           ("system_id_2", JInt 30000142)])
                    init_state)).
    eexists. split; [reflexivity|].
    left. exists infinity, (JInt 30000142).
    split; [reflexivity|]. split; reflexivity.
  - apply (proj1 (proj2 (json_view_raises
                           Scenario.clock Scenario.net Scenario.sqlite_bind
                           Mirror.int_of_str
                           (JArr [JInt 30000142; JInt 30000142])
                           init_state))).
    reflexivity.
Defined.

(** A touch of the Jita row. *)
Lemma touch_then_lookup_witness :
  let st := run [OpResolve 30000142] init_state in
  exists st' row',
    update_system_timestamp Scenario.clock 30000142 st = (Ok tt, st') /\
    get_system 30000142 st' = (Ok (Some row'), st') /\
    last_update row' = Scenario.clock 1 /\
    name row' = "Jita".
Proof.
  intros st.
  assert (exists row, db st !! 30000142 = Some row /\ name row = "Jita")
    as (row & Hrow & Hjita).
  { eexists. split; vm_compute; reflexivity. }
  destruct (touch_then_lookup Scenario.clock 30000142 st _ eq_refl)
    as (Hhit & _).
  destruct (Hhit row Hrow) as (row' & Hget & Hlast & _ & Hname & _).
  eexists _, row'. split; [reflexivity|]. split; [exact Hget|].
  split; [exact Hlast|]. by rewrite Hname.
Defined.

(** The Jita payload, and the payload without [position]. *)
Lemma extract_outcomes_witness :
  (exists d, extract Scenario.jita = Ok d /\ esi_name d = JStr "Jita") /\
  extract Scenario.no_position = Raise (KeyError "position").
Proof.
  split.
  - assert (exists d, extract Scenario.jita = Ok d) as [d Hd]
      by (eexists; vm_compute; reflexivity).
    exists d. split; [exact Hd|].
    destruct (proj1 (proj1 (extract_outcomes Scenario.jita) d) Hd)
      as (members & pos & [= <-] & _ & Hname & _).
    vm_compute in Hname. injection Hname as Hname. symmetry. exact Hname.
  - destruct (proj2 (proj1 (proj2 (extract_outcomes Scenario.no_position)))
                eq_refl) as [key Hkey].
    vm_compute in Hkey. injection Hkey as <-. reflexivity.
Defined.

(** A body that is a string, answered by the 500 handler. *)
Lemma replies_are_fixed_witness :
  answer_post
    Scenario.clock Scenario.net Scenario.sqlite_bind Mirror.int_of_str
    (JStr "30000142") init_state =
    ((500, ErrorBody "Internal server error"), init_state).
Proof.
  apply (proj1 (proj2 (proj2 (replies_are_fixed
                                Scenario.clock Scenario.net
                                Scenario.sqlite_bind Mirror.int_of_str
                                None None (JStr "30000142") init_state)))
           (AttributeError "'str' object has no attribute 'get'")).
  reflexivity.
Defined.

(** The opposite corners of the calculator's negative-coordinates test. *)
Lemma distance_is_never_negative_witness :
  exists d,
    calculate_distance (Coords (-1000) (-2000) (-3000)) (Coords 1000 2000 3000) =
      Ok d /\
    (distance_meters d <? 0)%float = false /\
    (distance_lightyears d <? 0)%float = false.
Proof.
  assert (exists d,
            calculate_distance (Coords (-1000) (-2000) (-3000))
              (Coords 1000 2000 3000) = Ok d)
    as [d Hd] by (eexists; vm_compute; reflexivity).
  exists d. split; [exact Hd|].
  exact (distance_is_never_negative _ _ d Hd).
Defined.

(** Jita against itself, on the empty table. *)
Lemma same_system_twice_witness :
  exists r st2,
    fst (resolve 30000142 init_state) = Ok r /\
    request (Some 30000142) (Some 30000142) init_state =
      ((200, DistanceBody (system_id r) (name r) (system_id r) (name r) 0 0),
       st2).
Proof.
  assert (exists r st1, resolve 30000142 init_state = (Ok r, st1) /\
            is_finite (x r) = true /\ is_finite (y r) = true /\
            is_finite (z r) = true)
    as (r & st1 & Hres & Hx & Hy & Hz).
  { eexists _, _. split; [vm_compute; reflexivity|]. by vm_compute. }
  destruct (same_system_twice Scenario.clock Scenario.net Scenario.sqlite_bind
              30000142 init_state st1 r eq_refl Hres Hx Hy Hz) as [st2 Hreq].
  exists r, st2. split; [by rewrite Hres|exact Hreq].
Defined.


(** Jita resolves, then the second system times out. *)
Lemma failed_request_keeps_first_row_witness :
  exists st2,
    request (Some 30000142) (Some 30000146) init_state =
      ((502, ErrorBody
               "Unable to retrieve system information. Please try again later."),
       st2) /\
    is_Some (db st2 !! 30000142).
Proof.
  assert (exists r1 st1, resolve 30000142 init_state = (Ok r1, st1))
    as (r1 & st1 & Hfirst) by (eexists _, _; vm_compute; reflexivity).
  assert (exists st2,
            resolve 30000146 st1 =
              (Raise (RuntimeError
                        "Failed to fetch system data from ESI: Connection timeout"),
               st2))
    as [st2 Hsecond].
  { assert (Hst1 : st1 = snd (resolve 30000142 init_state)) by by rewrite Hfirst.
    rewrite Hst1. eexists. vm_compute. reflexivity. }
  destruct (failed_request_keeps_first_row
              Scenario.clock Scenario.net Scenario.sqlite_bind
              30000142 30000146 init_state st1 st2 r1 _
              eq_refl eq_refl Hfirst Hsecond) as [Hreq (r & Hr & _)].
  exists st2. split; [exact Hreq|by eexists].
Defined.


End Runs.
